(** * Solute transport demo page (app35.py): a shallow embedding

    The page reads six inputs from the sidebar, and on "Run Simulation"
    pushes a concentration series through a chain of optional placeholder
    transforms selected by substring tests on the model name.  The series is
    a NumPy float64 array; it is modelled here as a list of IEEE-754
    binary64 values ([spec_float] with precision 53 and maximal exponent
    1024), NumPy's shape checks are modelled by an error monad, and the two
    library functions whose values are not fixed by IEEE-754 (the
    exponential and the Gaussian sampler) are parameters of the model. *)

From Stdlib Require Import ZArith List String Ascii Bool Lia.
From Stdlib Require Import SpecFloat DecimalString DecimalPos DecimalZ.
Import ListNotations.

Set Implicit Arguments.

(** ** binary64 arithmetic *)

Module F64.

Definition prec : Z := 53.
Definition emax : Z := 1024.

Definition float := spec_float.

Definition mul : float -> float -> float := SFmul prec emax.
Definition div : float -> float -> float := SFdiv prec emax.
Definition add : float -> float -> float := SFadd prec emax.
Definition sub : float -> float -> float := SFsub prec emax.
Definition opp : float -> float := SFopp.
Definition abs : float -> float := SFabs.
Definition ltb : float -> float -> bool := SFltb.
Definition eqb : float -> float -> bool := SFeqb.

(** Conversion of a (small) integer, as NumPy does when an int64 array
    meets a float64 operand. *)
Definition of_int (z : Z) : float := binary_normalize prec emax z 0 false.

(** A decimal literal [digits * 10^-scale] of the source text, rounded to
    nearest: both integers are exact in binary64, and the division rounds
    their exact quotient once. *)
Definition literal (digits : Z) (scale : nat) : float :=
  div (of_int digits) (of_int (10 ^ Z.of_nat scale)).

Definition zero : float := S754_zero false.
Definition one : float := of_int 1.
Definition nan : float := S754_nan.

(** A well-formed binary64 value: the mantissa is canonical and the
    exponent in range. *)
Definition valid (x : float) : Prop := valid_binary prec emax x = true.

Definition is_finite (x : float) : bool :=
  match x with
  | S754_zero _ | S754_finite _ _ _ => true
  | S754_infinity _ | S754_nan => false
  end.

Definition is_zero (x : float) : bool :=
  match x with
  | S754_zero _ => true
  | _ => false
  end.

Definition is_nan (x : float) : bool :=
  match x with
  | S754_nan => true
  | _ => false
  end.

Definition sign (x : float) : bool :=
  match x with
  | S754_zero s | S754_infinity s | S754_finite s _ _ => s
  | S754_nan => false
  end.

End F64.

Abbreviation float := F64.float.

(** ** Exceptions *)

(** Every failure of the run is a Python [ValueError]; the constructor
    records which check raised it. *)
Inductive exn : Type :=
| ValueError_broadcast (shape_left shape_right : nat)
| ValueError_max_empty
| ValueError_frame_lengths (n_time n_conc : nat).

Inductive result (A : Type) : Type :=
| Ok (a : A)
| Raise (e : exn).

Arguments Ok {A} a.
Arguments Raise {A} e.

Definition bind {A B : Type} (r : result A) (k : A -> result B) : result B :=
  match r with
  | Ok a => k a
  | Raise e => Raise e
  end.

Notation "x <- r ;; k" := (bind r (fun x => k))
  (at level 61, r at next level, right associativity).

Definition is_ok {A : Type} (r : result A) : bool :=
  match r with
  | Ok _ => true
  | Raise _ => false
  end.

(** ** Python strings and dictionaries *)

(** [needle in hay] on Python strings (case-sensitive substring test). *)
Fixpoint str_in (needle hay : string) : bool :=
  String.prefix needle hay ||
  match hay with
  | EmptyString => false
  | String _ rest => str_in needle rest
  end.

Definition dict := list (string * float).

(** [d.get(key, default)]. *)
Fixpoint get (d : dict) (key : string) (default : float) : float :=
  match d with
  | [] => default
  | (k, v) :: rest => if String.eqb k key then v else get rest key default
  end.

(** ** NumPy one-dimensional arrays *)

Module np.

Definition ones (n : nat) : list float := repeat F64.one n.

(** [np.arange(n)]: an int64 array. *)
Definition arange (n : nat) : list Z := map Z.of_nat (seq 0 n).

Definition astype_float (a : list Z) : list float := map F64.of_int a.

(** array (op) scalar and scalar (op) array: always defined. *)
Definition array_scalar (f : float -> float -> float) (a : list float) (s : float) :=
  map (fun x => f x s) a.
Definition scalar_array (f : float -> float -> float) (s : float) (a : list float) :=
  map (fun x => f s x) a.

Fixpoint zip_with (f : float -> float -> float) (a b : list float) : list float :=
  match a, b with
  | x :: a', y :: b' => f x y :: zip_with f a' b'
  | _, _ => []
  end.

(** [a (op) b] on arrays of shapes [(n,)] and [(m,)]: the shapes must be
    equal or one of them must be 1, otherwise NumPy raises. *)
Definition broadcast (f : float -> float -> float) (a b : list float)
  : result (list float) :=
  if Nat.eqb (List.length a) (List.length b) then Ok (zip_with f a b)
  else match a, b with
       | [x], _ => Ok (scalar_array f x b)
       | _, [y] => Ok (array_scalar f a y)
       | _, _ => Raise (ValueError_broadcast (List.length a) (List.length b))
       end.

(** [a (op)= b]: the result is written into [a], so the broadcast shape
    must be the shape of [a]. *)
Definition inplace (f : float -> float -> float) (a b : list float)
  : result (list float) :=
  if Nat.eqb (List.length a) (List.length b) then Ok (zip_with f a b)
  else match b with
       | [y] => Ok (array_scalar f a y)
       | _ => Raise (ValueError_broadcast (List.length a) (List.length b))
       end.

(** [a\[-1\] = v]. *)
Fixpoint set_last (a : list float) (v : float) : list float :=
  match a with
  | [] => []
  | [_] => [v]
  | x :: a' => x :: set_last a' v
  end.

(** [np.linspace(start, stop, num)] with the default [endpoint=True], as
    NumPy computes it: [arange(num) * step + start] with
    [step = (stop - start) / (num - 1)], the last entry overwritten by
    [stop]. *)
Definition linspace (start stop : float) (num : nat) : list float :=
  let div := (Z.of_nat num - 1)%Z in
  let delta := F64.sub stop start in
  let y := astype_float (arange num) in
  let y :=
    if (0 <? div)%Z then
      let step := F64.div delta (F64.of_int div) in
      if F64.eqb step F64.zero
      then array_scalar F64.mul (array_scalar F64.div y (F64.of_int div)) delta
      else array_scalar F64.mul y step
    else array_scalar F64.mul y delta in
  let y := array_scalar F64.add y start in
  if Nat.ltb 1 num then set_last y stop else y.

Definition abs (a : list float) : list float := map F64.abs a.

End np.

(** The builtin [max] over a sequence: keeps the first item and replaces it
    whenever a later item compares greater. *)
Definition py_max (xs : list float) : result float :=
  match xs with
  | [] => Raise ValueError_max_empty
  | x :: rest => Ok (fold_left (fun m item => if F64.ltb m item then item else m) rest x)
  end.

(** ** The data frame and its two outputs *)

Record DataFrame : Type := mkDataFrame
  { Time : list Z;
    Concentration : list float }.

(** [pd.DataFrame({"Time": time, "Concentration": concentration})]: the
    columns must have the same length. *)
Definition make_frame (time : list Z) (concentration : list float) : result DataFrame :=
  if Nat.eqb (List.length time) (List.length concentration)
  then Ok (mkDataFrame time concentration)
  else Raise (ValueError_frame_lengths (List.length time) (List.length concentration)).

(** [df.set_index("Time")], the data of the line chart. *)
Definition set_index_Time (df : DataFrame) : list (Z * float) :=
  combine (Time df) (Concentration df).

(** ** The placeholder processes and the run *)

Section Simulation.

(** [np.exp] on one element: the platform's exponential. *)
Variable np_exp : float -> float.

(** The i-th sample that [np.random.normal(0, 0.01, ...)] draws in this
    run. *)
Variable normal_sample : nat -> float.

Definition exp (a : list float) : list float := map np_exp a.

Definition random_normal (size : nat) : list float :=
  map normal_sample (seq 0 size).

Definition hydraulic_flow (parameters : dict) : list float :=
  np.array_scalar F64.mul (np.ones 100)
    (get parameters "hydraulic_gradient" (F64.literal 10 1)).

Definition thermal_transport (parameters : dict) : list float :=
  np.linspace (F64.of_int 20) (F64.of_int 60) 100.

Definition biodegradation (concentration : list float) (parameters : dict)
  : result (list float) :=
  let k := get parameters "decay_rate" (F64.literal 1 1) in
  np.broadcast F64.mul concentration
    (exp (np.scalar_array F64.mul (F64.opp k) (np.astype_float (np.arange 100)))).

Definition chemical_interactions (concentration : list float) (parameters : dict)
  : list float :=
  let kd := get parameters "kd" (F64.literal 5 1) in
  np.array_scalar F64.div concentration (F64.add F64.one kd).

Definition mechanical_response (parameters : dict) : list float :=
  random_normal 100.

Definition gas_transport (parameters : dict) : list float :=
  np.linspace (F64.of_int 0) (F64.of_int 1) 100.

(** The entries of the model-type select box. *)
Definition model_types : list string :=
  ["Basic"; "Hydro"; "HT"; "HTB"; "HTBCM"; "HTBCMG"]%string.

(** The blocks guarded by the substring tests of the run, in the order of
    the script. *)

(** [concentration * np.exp(-0.01 * time)] *)
Definition basic_branch (time : list Z) (concentration : list float)
  : result (list float) :=
  np.broadcast F64.mul concentration
    (exp (np.scalar_array F64.mul (F64.opp (F64.literal 1 2)) (np.astype_float time))).

(** [flow = hydraulic_flow({...}); concentration *= flow / max(flow)] *)
Definition hydro_branch (hydraulic_gradient : float) (concentration : list float)
  : result (list float) :=
  let flow := hydraulic_flow [("hydraulic_gradient"%string, hydraulic_gradient)] in
  top <- py_max flow ;;
  np.inplace F64.mul concentration (np.array_scalar F64.div flow top).

(** [temperature = thermal_transport({});
    concentration *= 1 + 0.01 * (temperature - 20)] *)
Definition thermal_branch (concentration : list float) : result (list float) :=
  let temperature := thermal_transport [] in
  np.inplace F64.mul concentration
    (np.scalar_array F64.add F64.one
       (np.scalar_array F64.mul (F64.literal 1 2)
          (np.array_scalar F64.sub temperature (F64.of_int 20)))).

(** [deformation = mechanical_response({});
    concentration *= 1 - np.abs(deformation)] *)
Definition mechanical_branch (concentration : list float) : result (list float) :=
  let deformation := mechanical_response [] in
  np.inplace F64.mul concentration
    (np.scalar_array F64.sub F64.one (np.abs deformation)).

(** [gas = gas_transport({}); concentration *= 1 - gas / max(gas)] *)
Definition gas_branch (concentration : list float) : result (list float) :=
  let gas := gas_transport [] in
  top <- py_max gas ;;
  np.inplace F64.mul concentration
    (np.scalar_array F64.sub F64.one (np.array_scalar F64.div gas top)).

(** The body of [if st.sidebar.button("Run Simulation"):] up to the data
    frame.  [time_steps] is the slider value (10 to 500). *)
Definition run (model_type : string) (time_steps : nat)
    (initial_conc hydraulic_gradient k_decay kd_value : float)
  : result DataFrame :=
  let time := np.arange time_steps in
  let concentration := np.array_scalar F64.mul (np.ones time_steps) initial_conc in
  (* Basic solute transport *)
  concentration <-
    (if String.eqb model_type "Basic"
     then basic_branch time concentration
     else Ok concentration) ;;
  (* Hydro *)
  concentration <-
    (if str_in "Hydro" model_type
     then hydro_branch hydraulic_gradient concentration
     else Ok concentration) ;;
  (* Thermal *)
  concentration <-
    (if str_in "HT" model_type
     then thermal_branch concentration
     else Ok concentration) ;;
  (* Biodegradation *)
  concentration <-
    (if str_in "B" model_type
     then biodegradation concentration [("decay_rate"%string, k_decay)]
     else Ok concentration) ;;
  (* Chemical *)
  concentration <-
    (if str_in "C" model_type
     then Ok (chemical_interactions concentration [("kd"%string, kd_value)])
     else Ok concentration) ;;
  (* Mechanical *)
  concentration <-
    (if str_in "M" model_type
     then mechanical_branch concentration
     else Ok concentration) ;;
  (* Gas *)
  concentration <-
    (if str_in "G" model_type
     then gas_branch concentration
     else Ok concentration) ;;
  (* Display results *)
  make_frame time concentration.

(** *** The run, element by element

    What each block does to the element of index [i] when the shapes
    agree; [run_at_100] below shows that the run computes exactly this at
    100 steps. *)

Definition basic_factor (i : nat) : float :=
  np_exp (F64.mul (F64.opp (F64.literal 1 2)) (F64.of_int (Z.of_nat i))).

Definition hydro_factor (hydraulic_gradient : float) : float :=
  F64.div (F64.mul F64.one hydraulic_gradient) (F64.mul F64.one hydraulic_gradient).

Definition thermal_factor (i : nat) : float :=
  F64.add F64.one
    (F64.mul (F64.literal 1 2)
       (F64.sub (nth i (thermal_transport []) F64.nan) (F64.of_int 20))).

Definition decay_factor (k : float) (i : nat) : float :=
  np_exp (F64.mul (F64.opp k) (F64.of_int (Z.of_nat i))).

Definition deformation_factor (i : nat) : float :=
  F64.sub F64.one (F64.abs (normal_sample i)).

Definition gas_factor (i : nat) : float :=
  F64.sub F64.one (F64.div (nth i (gas_transport []) F64.nan) F64.one).

Definition series_value (model_type : string)
    (initial_conc hydraulic_gradient k_decay kd_value : float) (i : nat) : float :=
  let c := F64.mul F64.one initial_conc in
  let c := if String.eqb model_type "Basic" then F64.mul c (basic_factor i) else c in
  let c := if str_in "Hydro" model_type then F64.mul c (hydro_factor hydraulic_gradient) else c in
  let c := if str_in "HT" model_type then F64.mul c (thermal_factor i) else c in
  let c := if str_in "B" model_type then F64.mul c (decay_factor k_decay i) else c in
  let c := if str_in "C" model_type then F64.div c (F64.add F64.one kd_value) else c in
  let c := if str_in "M" model_type then F64.mul c (deformation_factor i) else c in
  let c := if str_in "G" model_type then F64.mul c (gas_factor i) else c in
  c.

End Simulation.

(** [concentration\[-1\]] of a finished run. *)
Definition final_concentration (r : result DataFrame) : option float :=
  match r with
  | Ok df => nth_error (Concentration df) (List.length (Concentration df) - 1)
  | Raise _ => None
  end.

(** ** The CSV export *)

Definition newline : ascii := ascii_of_nat 10.
Definition comma : ascii := ","%char.

Section CsvExport.

(** The text pandas writes for a float64 cell. *)
Variable float_repr : float -> string.

Definition int_repr (z : Z) : string := NilZero.string_of_int (Z.to_int z).

Definition csv_header : string := "Time,Concentration".

Definition csv_row (row : Z * float) : string :=
  (int_repr (fst row) ++ String comma (float_repr (snd row) ++ String newline ""))%string.

(** [df.to_csv(index=False)]: a header line, then one line per row. *)
Definition to_csv (df : DataFrame) : string :=
  (csv_header ++ String newline
     (String.concat "" (map csv_row (combine (Time df) (Concentration df)))))%string.

(** *** Reading the file back

    The reader is not in the source; it follows the words of the
    round-trip property: split the text into lines, check the header, and
    read each line as an integer and a float separated by the first
    comma. *)

Variable float_parse : string -> option float.

Definition int_parse (s : string) : option Z :=
  option_map Z.of_int (NilZero.int_of_string s).

(** [str.splitlines()], with the current line in [line]. *)
Fixpoint splitlines_from (line text : string) : list string :=
  match text with
  | EmptyString => match line with EmptyString => [] | _ => [line] end
  | String a rest =>
      if Ascii.eqb a newline then line :: splitlines_from "" rest
      else splitlines_from (line ++ String a "") rest
  end.

Definition splitlines (text : string) : list string := splitlines_from "" text.

(** [str.partition(sep)] when the separator occurs. *)
Fixpoint partition (sep : ascii) (s : string) : option (string * string) :=
  match s with
  | EmptyString => None
  | String a rest =>
      if Ascii.eqb a sep then Some (EmptyString, rest)
      else match partition sep rest with
           | Some (before, after) => Some (String a before, after)
           | None => None
           end
  end.

Definition parse_row (line : string) : option (Z * float) :=
  match partition comma line with
  | Some (t, c) =>
      match int_parse t, float_parse c with
      | Some t', Some c' => Some (t', c')
      | _, _ => None
      end
  | None => None
  end.

Fixpoint parse_rows (lines : list string) : option (list (Z * float)) :=
  match lines with
  | [] => Some []
  | l :: rest =>
      match parse_row l, parse_rows rest with
      | Some r, Some rs => Some (r :: rs)
      | _, _ => None
      end
  end.

Definition read_csv (text : string) : option (list (Z * float)) :=
  match splitlines text with
  | header :: rows => if String.eqb header csv_header then parse_rows rows else None
  | [] => None
  end.

Fixpoint no_char (c : ascii) (s : string) : bool :=
  match s with
  | EmptyString => true
  | String a rest => negb (Ascii.eqb a c) && no_char c rest
  end.

(** A cell survives the export: its text has no line break and reads back
    as the same float. *)
Definition cell_round_trips (c : float) : Prop :=
  no_char newline (float_repr c) = true /\ float_parse (float_repr c) = Some c.

End CsvExport.

(** ** The page *)

(** What a finished run puts on the page: the data of the line chart and
    the data behind the download button. *)
Record Output : Type := mkOutput
  { line_chart : list (Z * float);
    download_button : string }.

Section Page.

Variable np_exp : float -> float.
Variable normal_sample : nat -> float.
Variable float_repr : float -> string.

(** [st.line_chart(df.set_index("Time"))] and
    [st.download_button(..., df.to_csv(index=False), ...)]. *)
Definition display (df : DataFrame) : Output :=
  {| line_chart := set_index_Time df;
     download_button := to_csv float_repr df |}.

(** The script: when the button was clicked the run is shown, otherwise
    only the hint to set the parameters. *)
Definition page (button : bool) (model_type : string) (time_steps : nat)
    (initial_conc hydraulic_gradient k_decay kd_value : float)
  : result (option Output) :=
  if button
  then df <- run np_exp normal_sample model_type time_steps
               initial_conc hydraulic_gradient k_decay kd_value ;;
       Ok (Some (display df))
  else Ok None.

End Page.

(** ** A text form of binary64 values

    A lossless rendering used to exhibit an export: the sign, the integer
    mantissa, the letter p and the binary exponent (the shape of C's
    hexadecimal floats), with words for the special values. *)

Definition float_text (x : float) : string :=
  match x with
  | S754_nan => "nan"
  | S754_infinity false => "inf"
  | S754_infinity true => "-inf"
  | S754_zero false => "0.0"
  | S754_zero true => "-0.0"
  | S754_finite s m e =>
      ((if s then "-" else "") ++ NilZero.string_of_uint (Pos.to_uint m)
         ++ String "p" (NilZero.string_of_int (Z.to_int e)))%string
  end.

Definition float_of_magnitude (s : bool) (text : string) : option float :=
  match partition "p" text with
  | Some (m, e) =>
      match option_map Pos.of_uint (NilZero.uint_of_string m),
            option_map Z.of_int (NilZero.int_of_string e) with
      | Some (Npos m'), Some e' => Some (S754_finite s m' e')
      | _, _ => None
      end
  | None => None
  end.

Definition float_of_text (text : string) : option float :=
  if String.eqb text "nan" then Some S754_nan
  else if String.eqb text "inf" then Some (S754_infinity false)
  else if String.eqb text "-inf" then Some (S754_infinity true)
  else if String.eqb text "0.0" then Some (S754_zero false)
  else if String.eqb text "-0.0" then Some (S754_zero true)
  else match text with
       | String "-" rest => float_of_magnitude true rest
       | _ => float_of_magnitude false text
       end.

(** ** Instances of the two parameters

    They serve to exhibit concrete runs.  [exp_at_zero] is right where the
    C standard fixes the exponential exactly, [exp(+-0) = 1], and answers
    NaN elsewhere; the samplers draw a constant. *)

Definition exp_at_zero (x : float) : float :=
  if F64.is_zero x then F64.one else F64.nan.

Definition no_noise (i : nat) : float := F64.zero.

Definition half_noise (i : nat) : float := F64.literal 5 1.

(** * Properties *)

(** ** binary64 facts used below *)

Lemma ltb_irrefl (x : float) : F64.ltb x x = false.
Proof.
  unfold F64.ltb, SFltb.
  destruct x as [s|s| |s m e]; simpl; try reflexivity.
  - destruct s; reflexivity.
  - destruct s; rewrite Z.compare_refl, Pos.compare_cont_refl; reflexivity.
Qed.

Lemma valid_finite s m e :
  F64.valid (S754_finite s m e) ->
  fexp F64.prec F64.emax (Zpos (digits2_pos m) + e) = e /\ (e <= F64.emax - F64.prec)%Z.
Proof.
  unfold F64.valid; simpl. unfold bounded, canonical_mantissa.
  intros H. apply andb_prop in H as [H1 H2].
  apply Z.eqb_eq in H1. apply Z.leb_le in H2. auto.
Qed.

(** Rounding a canonical mantissa scaled by [2^52] shifts it back. *)
Lemma shr_fexp_scaled m e :
  fexp F64.prec F64.emax (Zpos (digits2_pos m) + e) = e ->
  shr_fexp F64.prec F64.emax (Zpos (4503599627370496 * m)) (e + -52) loc_Exact
  = ({| shr_m := Zpos m; shr_r := false; shr_s := false |}, e).
Proof.
  intros Hc. unfold shr_fexp.
  cbn [Pos.mul Zdigits2 digits2_pos].
  match goal with
  | |- context [fexp _ _ ?a] => replace a with (Zpos (digits2_pos m) + e)%Z by lia
  end.
  rewrite Hc.
  replace (e - (e + -52))%Z with 52%Z by lia.
  cbn [shr shr_record_of_loc iter_pos shr_1 orb].
  f_equal. lia.
Qed.

Lemma shr_fexp_canonical m e :
  fexp F64.prec F64.emax (Zpos (digits2_pos m) + e) = e ->
  shr_fexp F64.prec F64.emax (Zpos m) e loc_Exact
  = ({| shr_m := Zpos m; shr_r := false; shr_s := false |}, e).
Proof.
  intros Hc. unfold shr_fexp. cbn [Zdigits2]. rewrite Hc, Z.sub_diag. reflexivity.
Qed.

Lemma round_scaled s m e :
  F64.valid (S754_finite s m e) ->
  binary_round_aux F64.prec F64.emax s (Zpos (4503599627370496 * m)) (e + -52) loc_Exact
  = S754_finite s m e.
Proof.
  intros Hv. apply valid_finite in Hv as [Hc Hb].
  unfold binary_round_aux.
  rewrite shr_fexp_scaled by exact Hc.
  cbn [shr_m loc_of_shr_record round_nearest_even].
  rewrite shr_fexp_canonical by exact Hc.
  cbn [shr_m].
  apply Z.leb_le in Hb. rewrite Hb. reflexivity.
Qed.

Lemma mul_one_r (x : float) : F64.valid x -> F64.mul x F64.one = x.
Proof.
  destruct x as [s|s| |s m e]; intros Hv.
  - destruct s; reflexivity.
  - destruct s; reflexivity.
  - reflexivity.
  - change F64.one with (S754_finite false 4503599627370496 (-52)).
    unfold F64.mul, SFmul.
    rewrite xorb_false_r, Pos.mul_comm.
    apply round_scaled, Hv.
Qed.

Lemma mul_one_l (x : float) : F64.valid x -> F64.mul F64.one x = x.
Proof.
  destruct x as [s|s| |s m e]; intros Hv.
  - destruct s; reflexivity.
  - destruct s; reflexivity.
  - reflexivity.
  - change F64.one with (S754_finite false 4503599627370496 (-52)).
    unfold F64.mul, SFmul.
    rewrite xorb_false_l, Z.add_comm.
    apply round_scaled, Hv.
Qed.

(** A finite nonzero value divided by itself is exactly one. *)
Lemma div_self s m e : F64.div (S754_finite s m e) (S754_finite s m e) = F64.one.
Proof.
  unfold F64.div, SFdiv, SFdiv_core_binary.
  rewrite xorb_nilpotent.
  replace (Zdigits2 (Zpos m) + e - (Zdigits2 (Zpos m) + e))%Z with 0%Z by lia.
  rewrite Z.sub_diag.
  change (Z.min (fexp F64.prec F64.emax 0) 0) with (-53)%Z.
  change (0 - -53)%Z with 53%Z.
  cbv iota.
  assert (Hq : Z.div_eucl (Z.shiftl (Zpos m) 53) (Zpos m) = (9007199254740992, 0)%Z).
  { rewrite Z.shiftl_mul_pow2 by lia.
    generalize (Z.div_eucl_eq (Zpos m * 2 ^ 53) (Zpos m)).
    generalize (Z.mod_pos_bound (Zpos m * 2 ^ 53) (Zpos m)).
    unfold Z.modulo.
    destruct (Z.div_eucl (Zpos m * 2 ^ 53) (Zpos m)) as [q r].
    intros Hr Heq. specialize (Hr ltac:(lia)). specialize (Heq ltac:(lia)).
    assert (q = 2 ^ 53)%Z by nia.
    assert (r = 0)%Z by nia.
    subst. reflexivity. }
  rewrite Hq.
  assert (Hl : new_location (Zpos m) 0 = loc_Exact).
  { unfold new_location. destruct (Z.even (Zpos m)); reflexivity. }
  rewrite Hl.
  vm_compute. reflexivity.
Qed.

Lemma mul_nan_r (x : float) : F64.mul x F64.nan = F64.nan.
Proof. destruct x; reflexivity. Qed.

(** ** Arrays and shapes *)

Lemma zip_with_map (A : Type) f (g h : A -> float) (l : list A) :
  np.zip_with f (map g l) (map h l) = map (fun i => f (g i) (h i)) l.
Proof. induction l as [|a l IH]; simpl; [reflexivity | now rewrite IH]. Qed.

Lemma broadcast_same f (a b : list float) :
  List.length a = List.length b -> np.broadcast f a b = Ok (np.zip_with f a b).
Proof. intros H. unfold np.broadcast. rewrite H, Nat.eqb_refl. reflexivity. Qed.

Lemma inplace_same f (a b : list float) :
  List.length a = List.length b -> np.inplace f a b = Ok (np.zip_with f a b).
Proof. intros H. unfold np.inplace. rewrite H, Nat.eqb_refl. reflexivity. Qed.

Lemma broadcast_mismatch f (a b : list float) :
  2 <= List.length a -> 2 <= List.length b -> List.length a <> List.length b ->
  np.broadcast f a b = Raise (ValueError_broadcast (List.length a) (List.length b)).
Proof.
  intros Ha Hb Hne. unfold np.broadcast.
  apply Nat.eqb_neq in Hne. rewrite Hne.
  destruct a as [|x [|x' a]]; simpl in Ha; try lia.
  destruct b as [|y [|y' b]]; simpl in Hb; try lia.
  reflexivity.
Qed.

Lemma inplace_mismatch f (a b : list float) :
  2 <= List.length b -> List.length a <> List.length b ->
  np.inplace f a b = Raise (ValueError_broadcast (List.length a) (List.length b)).
Proof.
  intros Hb Hne. unfold np.inplace.
  apply Nat.eqb_neq in Hne. rewrite Hne.
  destruct b as [|y [|y' b]]; simpl in Hb; try lia.
  reflexivity.
Qed.

Lemma tabulate_nth (l : list float) (d : float) :
  l = map (fun i => nth i l d) (seq 0 (List.length l)).
Proof.
  apply (nth_ext _ _ d (nth 0 l d)).
  - now rewrite length_map, length_seq.
  - intros n Hn.
    rewrite (map_nth (fun i => nth i l d) (seq 0 (List.length l)) 0 n).
    now rewrite seq_nth.
Qed.

Lemma map_const_seq (v : float) (s n : nat) :
  map (fun _ => v) (seq s n) = repeat v n.
Proof. revert s; induction n as [|n IH]; intros s; simpl; [reflexivity | now rewrite IH]. Qed.

Lemma ones_scaled (n : nat) (c : float) :
  np.array_scalar F64.mul (np.ones n) c = map (fun _ => F64.mul F64.one c) (seq 0 n).
Proof.
  unfold np.array_scalar, np.ones. rewrite map_const_seq.
  induction n as [|n IH]; simpl; [reflexivity | now rewrite IH].
Qed.

Lemma py_max_const (v : float) (s n : nat) :
  py_max (map (fun _ => v) (seq s (S n))) = Ok v.
Proof.
  simpl. f_equal. generalize (S s). induction n as [|n IH]; intros s'; simpl.
  - reflexivity.
  - rewrite ltb_irrefl. apply IH.
Qed.

Lemma make_frame_same (time : list Z) (concentration : list float) :
  List.length time = List.length concentration ->
  make_frame time concentration = Ok (mkDataFrame time concentration).
Proof. intros H. unfold make_frame. rewrite H, Nat.eqb_refl. reflexivity. Qed.

Lemma arange_length (n : nat) : List.length (np.arange n) = n.
Proof. unfold np.arange. now rewrite length_map, length_seq. Qed.

Lemma thermal_length : List.length (thermal_transport []) = 100.
Proof. vm_compute. reflexivity. Qed.

Lemma gas_length : List.length (gas_transport []) = 100.
Proof. vm_compute. reflexivity. Qed.

Lemma gas_max : py_max (gas_transport []) = Ok F64.one.
Proof. vm_compute. reflexivity. Qed.

(** The lengths of the arrays of the run, for [autorewrite with shape]. *)
Create Rewrite HintDb shape.
#[local] Hint Rewrite length_map length_seq repeat_length
  arange_length thermal_length gas_length : shape.

Ltac shape := autorewrite with shape; auto with arith.

(** ** The blocks of the run on a series of matching shape *)

Section Blocks.

Variable np_exp : float -> float.
Variable normal_sample : nat -> float.

Lemma hydraulic_flow_constant (g : float) :
  hydraulic_flow [("hydraulic_gradient"%string, g)]
  = map (fun _ => F64.mul F64.one g) (seq 0 100).
Proof. unfold hydraulic_flow. cbn [get String.eqb Ascii.eqb Bool.eqb]. apply ones_scaled. Qed.

Lemma hydraulic_flow_max (g : float) :
  py_max (hydraulic_flow [("hydraulic_gradient"%string, g)]) = Ok (F64.mul F64.one g).
Proof. rewrite hydraulic_flow_constant. apply (py_max_const _ 0 99). Qed.

Lemma basic_branch_at (n : nat) (f : nat -> float) :
  basic_branch np_exp (np.arange n) (map f (seq 0 n))
  = Ok (map (fun i => F64.mul (f i) (basic_factor np_exp i)) (seq 0 n)).
Proof.
  unfold basic_branch, exp, np.scalar_array, np.astype_float, np.arange.
  rewrite !map_map, broadcast_same by shape.
  now rewrite zip_with_map.
Qed.

Lemma hydro_branch_at (g : float) (f : nat -> float) :
  hydro_branch g (map f (seq 0 100))
  = Ok (map (fun i => F64.mul (f i) (hydro_factor g)) (seq 0 100)).
Proof.
  unfold hydro_branch. rewrite hydraulic_flow_max. cbn [bind].
  rewrite hydraulic_flow_constant. unfold np.array_scalar.
  rewrite map_map, inplace_same by shape.
  now rewrite zip_with_map.
Qed.

Lemma thermal_branch_at (f : nat -> float) :
  thermal_branch (map f (seq 0 100))
  = Ok (map (fun i => F64.mul (f i) (thermal_factor i)) (seq 0 100)).
Proof.
  unfold thermal_branch, np.scalar_array, np.array_scalar.
  rewrite !map_map, inplace_same by shape.
  apply (f_equal Ok).
  rewrite (tabulate_nth (thermal_transport []) F64.nan) at 1.
  rewrite thermal_length, map_map.
  apply zip_with_map.
Qed.

Lemma biodegradation_at (k : float) (f : nat -> float) :
  biodegradation np_exp (map f (seq 0 100)) [("decay_rate"%string, k)]
  = Ok (map (fun i => F64.mul (f i) (decay_factor np_exp k i)) (seq 0 100)).
Proof.
  unfold biodegradation, exp, np.scalar_array, np.astype_float, np.arange.
  cbn [get String.eqb Ascii.eqb Bool.eqb].
  rewrite !map_map, broadcast_same by shape.
  now rewrite zip_with_map.
Qed.

Lemma chemical_interactions_at (kd : float) (n : nat) (f : nat -> float) :
  chemical_interactions (map f (seq 0 n)) [("kd"%string, kd)]
  = map (fun i => F64.div (f i) (F64.add F64.one kd)) (seq 0 n).
Proof.
  unfold chemical_interactions, np.array_scalar.
  cbn [get String.eqb Ascii.eqb Bool.eqb].
  now rewrite map_map.
Qed.

Lemma mechanical_branch_at (f : nat -> float) :
  mechanical_branch normal_sample (map f (seq 0 100))
  = Ok (map (fun i => F64.mul (f i) (deformation_factor normal_sample i)) (seq 0 100)).
Proof.
  unfold mechanical_branch, mechanical_response, random_normal, np.scalar_array, np.abs.
  rewrite !map_map, inplace_same by shape.
  now rewrite zip_with_map.
Qed.

Lemma gas_branch_at (f : nat -> float) :
  gas_branch (map f (seq 0 100))
  = Ok (map (fun i => F64.mul (f i) (gas_factor i)) (seq 0 100)).
Proof.
  unfold gas_branch. rewrite gas_max. cbn [bind].
  unfold np.scalar_array, np.array_scalar.
  rewrite !map_map, inplace_same by shape.
  apply (f_equal Ok).
  rewrite (tabulate_nth (gas_transport []) F64.nan) at 1.
  rewrite gas_length, map_map.
  apply zip_with_map.
Qed.

(** At 100 steps every shape agrees and the run is [series_value] at each
    index, for every model name and every value of the inputs. *)
Lemma run_at_100 (m : string) (c0 g k kd : float) :
  run np_exp normal_sample m 100 c0 g k kd
  = Ok (mkDataFrame (np.arange 100)
          (map (series_value np_exp normal_sample m c0 g k kd) (seq 0 100))).
Proof.
  unfold run, series_value.
  rewrite ones_scaled.
  destruct (String.eqb m "Basic");
    [rewrite basic_branch_at|]; cbn [bind];
  (destruct (str_in "Hydro" m); [rewrite hydro_branch_at|]; cbn [bind]);
  (destruct (str_in "HT" m); [rewrite thermal_branch_at|]; cbn [bind]);
  (destruct (str_in "B" m); [rewrite biodegradation_at|]; cbn [bind]);
  (destruct (str_in "C" m); [rewrite chemical_interactions_at|]; cbn [bind]);
  (destruct (str_in "M" m); [rewrite mechanical_branch_at|]; cbn [bind]);
  (destruct (str_in "G" m); [rewrite gas_branch_at|]; cbn [bind]);
  apply make_frame_same; shape.
Qed.

End Blocks.

(** ** The blocks of the run on a series of another length *)

Ltac eval_flags :=
  repeat match goal with
    | |- context [String.eqb ?a ?b] =>
        let v := eval vm_compute in (String.eqb a b) in
        change (String.eqb a b) with v
    | |- context [str_in ?a ?b] =>
        let v := eval vm_compute in (str_in a b) in
        change (str_in a b) with v
    end.

Section Mismatch.

Variable np_exp : float -> float.
Variable normal_sample : nat -> float.

Lemma biodegradation_mismatch (conc : list float) (parameters : dict) :
  2 <= List.length conc -> List.length conc <> 100 ->
  biodegradation np_exp conc parameters
  = Raise (ValueError_broadcast (List.length conc) 100).
Proof.
  intros H2 Hne. unfold biodegradation.
  rewrite broadcast_mismatch; unfold exp, np.scalar_array, np.astype_float;
    rewrite ?length_map, ?arange_length; auto with arith.
Qed.

Lemma hydro_branch_mismatch (g : float) (conc : list float) :
  List.length conc <> 100 ->
  hydro_branch g conc = Raise (ValueError_broadcast (List.length conc) 100).
Proof.
  intros Hne. unfold hydro_branch. rewrite hydraulic_flow_max. cbn [bind].
  rewrite hydraulic_flow_constant.
  rewrite inplace_mismatch; unfold np.array_scalar;
    rewrite ?length_map, ?length_seq; auto with arith.
Qed.

Lemma thermal_branch_mismatch (conc : list float) :
  List.length conc <> 100 ->
  thermal_branch conc = Raise (ValueError_broadcast (List.length conc) 100).
Proof.
  intros Hne. unfold thermal_branch.
  rewrite inplace_mismatch; unfold np.scalar_array, np.array_scalar;
    rewrite ?length_map, ?thermal_length; auto with arith.
Qed.

(** Off 100 steps the first block that meets one of the 100-element
    placeholder arrays raises; every entry of the select box has one. *)
Lemma run_off_100 (m : string) (n : nat) (c0 g k kd : float) :
  In m model_types -> 2 <= n -> n <> 100 ->
  run np_exp normal_sample m n c0 g k kd = Raise (ValueError_broadcast n 100).
Proof.
  intros Hm H2 Hne.
  assert (Hlen : forall f : nat -> float, List.length (map f (seq 0 n)) = n)
    by (intros f; now rewrite length_map, length_seq).
  unfold model_types in Hm. simpl in Hm.
  unfold run. rewrite ones_scaled.
  destruct Hm as [<-|[<-|[<-|[<-|[<-|[<-|[]]]]]]]; eval_flags; cbn [bind].
  - rewrite basic_branch_at. cbn [bind].
    rewrite biodegradation_mismatch; rewrite Hlen; auto.
  - rewrite hydro_branch_mismatch; rewrite Hlen; auto.
  - rewrite thermal_branch_mismatch; rewrite Hlen; auto.
  - rewrite thermal_branch_mismatch; rewrite Hlen; auto.
  - rewrite thermal_branch_mismatch; rewrite Hlen; auto.
  - rewrite thermal_branch_mismatch; rewrite Hlen; auto.
Qed.

End Mismatch.

(** ** Supporting facts at 100 steps *)

Section AtHundred.

Variable np_exp : float -> float.
Variable normal_sample : nat -> float.

(** At 100 steps the run returns a frame whose two columns have 100
    entries, whatever the model name and the parameters. *)
Lemma run_at_100_shape (m : string) (c0 g k kd : float) :
  exists df, run np_exp normal_sample m 100 c0 g k kd = Ok df
             /\ Time df = np.arange 100
             /\ List.length (Time df) = 100
             /\ List.length (Concentration df) = 100.
Proof.
  eexists. split; [apply run_at_100|]. cbn [Time Concentration].
  now rewrite arange_length, length_map, length_seq.
Qed.

(** On a 100-element series the biodegradation placeholder multiplies the
    element of index [i] by [exp(-k * i)]. *)
Lemma biodegradation_at_100 (conc : list float) (k : float) :
  List.length conc = 100 ->
  biodegradation np_exp conc [("decay_rate"%string, k)]
  = Ok (map (fun i => F64.mul (nth i conc F64.nan)
                        (np_exp (F64.mul (F64.opp k) (F64.of_int (Z.of_nat i)))))
          (seq 0 100)).
Proof.
  intros Hlen. rewrite (tabulate_nth conc F64.nan) at 1. rewrite Hlen.
  apply biodegradation_at.
Qed.

(** On a 100-element series the thermal block multiplies the element of
    index [i] by [1 + 0.01 * (T_i - 20)], [T] the temperature array. *)
Lemma thermal_branch_at_100 (conc : list float) :
  List.length conc = 100 ->
  thermal_branch conc
  = Ok (map (fun i => F64.mul (nth i conc F64.nan)
                        (F64.add F64.one
                           (F64.mul (F64.literal 1 2)
                              (F64.sub (nth i (thermal_transport []) F64.nan)
                                 (F64.of_int 20)))))
          (seq 0 100)).
Proof.
  intros Hlen. rewrite (tabulate_nth conc F64.nan) at 1. rewrite Hlen.
  apply thermal_branch_at.
Qed.

(** The temperature array: 100 points, from 20 to 60, the point of index
    [i < 99] being [i * (40 / 99) + 20] in binary64. *)
Lemma thermal_transport_ramp :
  List.length (thermal_transport []) = 100
  /\ nth 0 (thermal_transport []) F64.nan = F64.of_int 20
  /\ nth 99 (thermal_transport []) F64.nan = F64.of_int 60
  /\ firstn 99 (thermal_transport [])
     = map (fun i => F64.add (F64.mul (F64.of_int (Z.of_nat i))
                                (F64.div (F64.of_int 40) (F64.of_int 99)))
                       (F64.of_int 20))
         (seq 0 99).
Proof. vm_compute. repeat split; reflexivity. Qed.

End AtHundred.

(** ** The claims *)

Section Claims.

Variable np_exp : float -> float.
Variable normal_sample : nat -> float.

Local Abbreviation run' := (run np_exp normal_sample).

(** C1 (the code departs from the claim).  The claim: for the "Basic"
    model the concentration at time [t] is [initial_conc * exp(-0.01 * t)].
    The code: the name "Basic" contains the letter "B", so the
    biodegradation block runs as well; at 100 steps the value at [t] is
    [initial_conc * exp(-0.01 * t) * exp(-k_decay * t)]. *)
Theorem basic_model_also_biodegrades (c0 g k kd : float) :
  str_in "B" "Basic" = true
  /\ run' "Basic" 100 c0 g k kd
     = Ok (mkDataFrame (np.arange 100)
             (map (fun t =>
                     F64.mul
                       (F64.mul (F64.mul F64.one c0)
                          (np_exp (F64.mul (F64.opp (F64.literal 1 2))
                                     (F64.of_int (Z.of_nat t)))))
                       (np_exp (F64.mul (F64.opp k) (F64.of_int (Z.of_nat t)))))
                (seq 0 100))).
Proof.
  split; [reflexivity|]. rewrite run_at_100. reflexivity.
Qed.

(** C2 (the code departs from the claim).  The claim: for every model
    type and every step count from 10 to 500 the run produces a series of
    that length.  The code: at every step count other than 100 the run
    raises [ValueError], because each model type reaches a block that
    combines the series with a 100-element placeholder array. *)
Theorem run_raises_unless_100_steps (m : string) (n : nat) (c0 g k kd : float) :
  In m model_types -> 10 <= n <= 500 -> n <> 100 ->
  run' m n c0 g k kd = Raise (ValueError_broadcast n 100).
Proof. intros Hm Hn Hne. apply run_off_100; auto. lia. Qed.

(** C3 (the code departs from the claim).  The claim: "HTBCMG" enables
    all six processes, the hydraulic-flow block included.  The code: that
    block is guarded by ["Hydro" in model_type], which is false for
    "HTBCMG"; the run does not read the hydraulic gradient at all. *)
Theorem HTBCMG_skips_hydraulic_flow (n : nat) (c0 g g' k kd : float) :
  str_in "Hydro" "HTBCMG" = false
  /\ run' "HTBCMG" n c0 g k kd = run' "HTBCMG" n c0 g' k kd.
Proof. split; [reflexivity|]. unfold run. eval_flags. reflexivity. Qed.

(** C4 (the code departs from the claim).  The claim: the
    biodegradation transform multiplies the series elementwise by
    [exp(-k * t)].  The code: the factor array always has 100 elements,
    so on a series of any other length (two elements or more) the
    product raises [ValueError]. *)
Theorem biodegradation_raises_unless_100 (conc : list float) (k : float) :
  2 <= List.length conc -> List.length conc <> 100 ->
  biodegradation np_exp conc [("decay_rate"%string, k)]
  = Raise (ValueError_broadcast (List.length conc) 100).
Proof. apply biodegradation_mismatch. Qed.

(** C6.  With the "Hydro" model and a zero hydraulic gradient (of either
    sign) the maximum of the flow array is that zero, the normalised flow
    [flow / max(flow)] is computed all the same and is NaN everywhere, and
    the run at 100 steps returns a frame (of NaN) instead of raising.
    No parameter value makes the run at 100 steps raise. *)
Theorem hydro_zero_gradient_unguarded (s : bool) (c0 k kd : float) :
  let g := S754_zero s in
  let flow := hydraulic_flow [("hydraulic_gradient"%string, g)] in
  py_max flow = Ok g
  /\ np.array_scalar F64.div flow g = repeat F64.nan 100
  /\ run' "Hydro" 100 c0 g k kd
     = Ok (mkDataFrame (np.arange 100) (repeat F64.nan 100))
  /\ (forall m c0' g' k' kd', is_ok (run' m 100 c0' g' k' kd') = true).
Proof.
  intros g flow.
  assert (Hg : F64.mul F64.one g = g) by (destruct s; reflexivity).
  split; [|split; [|split]].
  - unfold flow. now rewrite hydraulic_flow_max, Hg.
  - unfold flow. rewrite hydraulic_flow_constant, Hg.
    unfold np.array_scalar. rewrite map_map.
    replace (F64.div g g) with F64.nan by (destruct s; reflexivity).
    apply map_const_seq.
  - rewrite run_at_100. do 2 f_equal.
    unfold series_value. eval_flags. unfold hydro_factor. rewrite Hg.
    replace (F64.div g g) with F64.nan by (destruct s; reflexivity).
    rewrite mul_nan_r. apply map_const_seq.
  - intros. now rewrite run_at_100.
Qed.

(** C7 (the code departs from the claim).  The claim: the thermal
    transform multiplies the i-th element of the series by
    [1 + 0.01 * (T_i - 20)].  The code: the temperature array always has
    100 points, so on a series of any other length the in-place product
    raises [ValueError]. *)
Theorem thermal_branch_raises_unless_100 (conc : list float) :
  List.length conc <> 100 ->
  thermal_branch conc = Raise (ValueError_broadcast (List.length conc) 100).
Proof. apply thermal_branch_mismatch. Qed.

(** *** Determinism (C8) *)

Lemma nth_map_seq (f : nat -> float) (n i : nat) (d : float) :
  i < n -> nth i (map f (seq 0 n)) d = f i.
Proof.
  intros Hi. rewrite (nth_indep _ d (f 0)) by now rewrite length_map, length_seq.
  rewrite (map_nth f (seq 0 n) 0 i). now rewrite seq_nth.
Qed.

Lemma nth_error_map_seq (f : nat -> float) (n i : nat) :
  i < n -> nth_error (map f (seq 0 n)) i = Some (f i).
Proof.
  intros Hi. rewrite nth_error_map, nth_error_seq.
  apply Nat.ltb_lt in Hi. now rewrite Hi.
Qed.

(** The first element of the default run of a model with the mechanical
    block depends on the first sample. *)
Lemma mechanical_models_differ (m : string) :
  (forall s, np_exp (S754_zero s) = F64.one) ->
  m = "HTBCM"%string \/ m = "HTBCMG"%string ->
  run np_exp no_noise m 100 (F64.of_int 100) F64.one (F64.literal 1 1) (F64.literal 5 1)
  <> run np_exp half_noise m 100 (F64.of_int 100) F64.one (F64.literal 1 1) (F64.literal 5 1).
Proof.
  intros Hexp Hm. rewrite !run_at_100. intros H.
  apply (f_equal (fun r => match r with
                         | Ok df => nth 0 (Concentration df) F64.nan
                         | Raise _ => F64.nan
                         end)) in H.
  cbv beta iota in H. cbn [Concentration] in H.
  rewrite !nth_map_seq in H by auto with arith.
  revert H. unfold series_value, decay_factor.
  replace (F64.mul (F64.opp (F64.literal 1 1)) (F64.of_int (Z.of_nat 0)))
    with (S754_zero true) by (vm_compute; reflexivity).
  rewrite Hexp.
  destruct Hm as [-> | ->]; vm_compute; discriminate.
Qed.

(** C8.  Provided the exponential is exact at zero, a model type without
    "M" ("Basic", "Hydro", "HT", "HTB") gives the same result for the same
    six inputs whatever the Gaussian samples are, while for a model type
    with "M" there are inputs and two draws of the samples on which the
    results differ. *)
Theorem runs_repeat_unless_mechanical (m : string) :
  (forall s, np_exp (S754_zero s) = F64.one) ->
  In m model_types ->
  if str_in "M" m
  then exists n c0 g k kd sample1 sample2,
         run np_exp sample1 m n c0 g k kd <> run np_exp sample2 m n c0 g k kd
  else forall n c0 g k kd sample1 sample2,
         run np_exp sample1 m n c0 g k kd = run np_exp sample2 m n c0 g k kd.
Proof.
  intros Hexp Hm. unfold model_types in Hm. simpl in Hm.
  destruct Hm as [<-|[<-|[<-|[<-|[<-|[<-|[]]]]]]]; eval_flags; cbv iota.
  1-4: intros; unfold run; eval_flags; reflexivity.
  all: exists 100, (F64.of_int 100), F64.one, (F64.literal 1 1), (F64.literal 5 1),
         no_noise, half_noise;
       apply mechanical_models_differ; auto.
Qed.

(** *** The hydraulic gradient (C9) *)

(** C9 (the code departs from the claim).  The claim: for every nonzero
    hydraulic gradient the hydraulic-flow transform is the identity on the
    concentration series.  The code: the normalised flow always has 100
    elements, so on a series of any other length the in-place product
    raises [ValueError], whatever the gradient. *)
Theorem hydro_branch_raises_unless_100 (g : float) (conc : list float) :
  List.length conc <> 100 ->
  hydro_branch g conc = Raise (ValueError_broadcast (List.length conc) 100).
Proof. apply hydro_branch_mismatch. Qed.

Lemma hydro_factor_one (g : float) :
  F64.valid g -> F64.is_finite g = true -> F64.is_zero g = false ->
  hydro_factor g = F64.one.
Proof.
  intros Hv Hf Hz. unfold hydro_factor. rewrite mul_one_l by exact Hv.
  destruct g; try discriminate. apply div_self.
Qed.

Lemma hydro_branch_ones (g : float) (conc : list float) :
  F64.valid g -> F64.is_finite g = true -> F64.is_zero g = false ->
  hydro_branch g conc = np.inplace F64.mul conc (np.ones 100).
Proof.
  intros Hv Hf Hz. unfold hydro_branch.
  rewrite hydraulic_flow_max. cbn [bind]. rewrite hydraulic_flow_constant.
  unfold np.array_scalar. rewrite map_map.
  change (fun _ : nat => F64.div (F64.mul F64.one g) (F64.mul F64.one g))
    with (fun _ : nat => hydro_factor g).
  rewrite hydro_factor_one by assumption.
  now rewrite map_const_seq.
Qed.

Lemma zip_with_ones (conc : list float) :
  Forall F64.valid conc ->
  np.zip_with F64.mul conc (np.ones (List.length conc)) = conc.
Proof.
  unfold np.ones.
  induction 1 as [|x conc Hx _ IH]; cbn [np.zip_with repeat List.length]; [reflexivity|].
  now rewrite mul_one_r, IH.
Qed.

(** On 100 elements the hydraulic block does nothing.  For a hydraulic
    gradient [g] that is a finite nonzero binary64 value: the flow array is
    100 copies of [g], the normalised flow is 100 ones, the hydraulic block
    returns a 100-element series of binary64 values unchanged, and the run
    gives the same result (frame or error) for [g] as for any other finite
    nonzero gradient, whatever the model name, the step count and the
    other inputs. *)
Theorem hydraulic_gradient_never_matters (g : float) :
  F64.valid g -> F64.is_finite g = true -> F64.is_zero g = false ->
  let flow := hydraulic_flow [("hydraulic_gradient"%string, g)] in
  flow = repeat g 100
  /\ (exists top, py_max flow = Ok top /\ np.array_scalar F64.div flow top = np.ones 100)
  /\ (forall conc, List.length conc = 100 -> Forall F64.valid conc ->
        hydro_branch g conc = Ok conc)
  /\ (forall g', F64.valid g' -> F64.is_finite g' = true -> F64.is_zero g' = false ->
      forall m n c0 k kd, run' m n c0 g k kd = run' m n c0 g' k kd).
Proof.
  intros Hv Hf Hz flow. unfold flow.
  assert (Hg : F64.mul F64.one g = g) by now apply mul_one_l.
  split; [|split; [|split]].
  - rewrite hydraulic_flow_constant, Hg. apply map_const_seq.
  - exists g. rewrite hydraulic_flow_max, hydraulic_flow_constant, Hg. split; [reflexivity|].
    unfold np.array_scalar. rewrite map_map.
    replace (F64.div g g) with F64.one
      by (destruct g; try discriminate; symmetry; apply div_self).
    apply map_const_seq.
  - intros conc Hlen Hall. rewrite hydro_branch_ones by assumption.
    rewrite inplace_same by (rewrite Hlen; reflexivity).
    rewrite <- Hlen. now rewrite zip_with_ones.
  - intros g' Hv' Hf' Hz' m n c0 k kd. unfold run.
    destruct (if String.eqb m "Basic" then _ else _) as [conc|e]; cbn [bind];
      [|reflexivity].
    destruct (str_in "Hydro" m); [|reflexivity].
    now rewrite !hydro_branch_ones by assumption.
Qed.

(** *** The last element under the gas block (C10) *)

Lemma gas_factor_last : gas_factor 99 = F64.zero.
Proof. vm_compute. reflexivity. Qed.

Lemma mul_zero_r (c : float) :
  F64.mul c F64.zero = if F64.is_finite c then S754_zero (F64.sign c) else F64.nan.
Proof. destruct c as [[]|[]| |[] ? ?]; reflexivity. Qed.

Lemma div_zero_then_mul_zero (a x : float) :
  F64.mul (F64.mul (F64.div a F64.zero) x) F64.zero = F64.nan.
Proof.
  destruct a as [[]|[]| |[] ? ?], x as [[]|[]| |[] ? ?]; reflexivity.
Qed.

Lemma final_concentration_at_100 (m : string) (c0 g k kd : float) :
  final_concentration (run' m 100 c0 g k kd)
  = Some (series_value np_exp normal_sample m c0 g k kd 99).
Proof.
  rewrite run_at_100. unfold final_concentration. cbn [Concentration].
  rewrite length_map, length_seq. apply nth_error_map_seq. auto with arith.
Qed.

(** C10, as amended.  "HTBCMG" is the one model type with "G".  At 100
    steps the last gas factor is [+0], and the last element of the series
    is the last element of the "HTBCM" series for the same inputs and
    samples times that factor: a zero of that element's sign when it is
    finite, NaN when it is infinite or NaN. *)
Theorem gas_zeroes_a_finite_last_element (c0 g k kd : float) :
  filter (str_in "G") model_types = ["HTBCMG"%string]
  /\ gas_factor 99 = F64.zero
  /\ exists before,
       run' "HTBCM" 100 c0 g k kd = Ok before
       /\ final_concentration (run' "HTBCMG" 100 c0 g k kd)
          = Some (let c := nth 99 (Concentration before) F64.nan in
                  if F64.is_finite c then S754_zero (F64.sign c) else F64.nan).
Proof.
  split; [reflexivity|]. split; [apply gas_factor_last|].
  eexists. split; [apply run_at_100|].
  rewrite final_concentration_at_100. cbn [Concentration]. cbv zeta.
  rewrite nth_map_seq by auto with arith.
  rewrite <- mul_zero_r, <- gas_factor_last.
  unfold series_value. eval_flags. reflexivity.
Qed.

End Claims.

(** C10, as stated, fails: with the distribution coefficient [Kd = -1]
    the sorption block divides by [1 + Kd = 0], and the last element of the
    "HTBCMG" series at 100 steps is NaN for every exponential, every draw of
    the samples and every value of the other inputs. *)
Lemma last_element_is_nan_for_kd_minus_one :
  exists kd : float,
    F64.valid kd /\ F64.is_finite kd = true
    /\ forall np_exp normal_sample c0 g k,
         final_concentration (run np_exp normal_sample "HTBCMG" 100 c0 g k kd)
         = Some F64.nan.
Proof.
  exists (F64.of_int (-1)). split; [reflexivity|]. split; [reflexivity|].
  intros. rewrite final_concentration_at_100. f_equal.
  unfold series_value. eval_flags. cbv iota.
  rewrite gas_factor_last.
  replace (F64.add F64.one (F64.of_int (-1))) with F64.zero by (vm_compute; reflexivity).
  apply div_zero_then_mul_zero.
Qed.

(** ** The framing of the CSV export *)

Lemma append_nil_r (s : string) : (s ++ "")%string = s.
Proof. induction s as [|a s IH]; simpl; [reflexivity | now rewrite IH]. Qed.

Lemma append_assoc (s t u : string) : ((s ++ t) ++ u)%string = (s ++ (t ++ u))%string.
Proof. induction s as [|a s IH]; simpl; [reflexivity | now rewrite IH]. Qed.

Lemma no_char_append (c : ascii) (s t : string) :
  no_char c (s ++ t) = no_char c s && no_char c t.
Proof.
  induction s as [|a s IH]; simpl; [reflexivity|].
  now rewrite IH, andb_assoc.
Qed.

Lemma digits_no_newline (d : Decimal.uint) :
  no_char newline (NilEmpty.string_of_uint d) = true.
Proof. induction d; simpl; auto. Qed.

Lemma digits_no_comma (d : Decimal.uint) :
  no_char comma (NilEmpty.string_of_uint d) = true.
Proof. induction d; simpl; auto. Qed.

Lemma int_repr_no_newline (z : Z) : no_char newline (int_repr z) = true.
Proof.
  unfold int_repr, NilZero.string_of_int, NilZero.string_of_uint.
  destruct (Z.to_int z) as [d|d]; destruct d; simpl; auto using digits_no_newline.
Qed.

Lemma int_repr_no_comma (z : Z) : no_char comma (int_repr z) = true.
Proof.
  unfold int_repr, NilZero.string_of_int, NilZero.string_of_uint.
  destruct (Z.to_int z) as [d|d]; destruct d; simpl; auto using digits_no_comma.
Qed.

Lemma to_uint_not_nil (p : positive) : Pos.to_uint p <> Decimal.Nil.
Proof.
  intros H. generalize (DecimalPos.Unsigned.of_to p). rewrite H. discriminate.
Qed.

Lemma int_parse_repr (z : Z) : int_parse (int_repr z) = Some z.
Proof.
  unfold int_parse, int_repr.
  rewrite NilZero.isi.
  - simpl. now rewrite DecimalZ.of_to.
  - destruct z; simpl; try discriminate.
    intros [= H]. now apply to_uint_not_nil in H.
  - destruct z; simpl; try discriminate.
    intros [= H]. now apply to_uint_not_nil in H.
Qed.

Lemma splitlines_from_line (line rest cur : string) :
  no_char newline line = true ->
  splitlines_from cur (line ++ String newline rest)
  = (cur ++ line)%string :: splitlines_from "" rest.
Proof.
  revert cur. induction line as [|a line IH]; intros cur Hno.
  - simpl. now rewrite append_nil_r.
  - simpl in Hno. apply andb_prop in Hno as [Ha Hno].
    apply negb_true_iff in Ha.
    cbn [append splitlines_from]. rewrite Ha.
    rewrite IH by exact Hno. now rewrite append_assoc.
Qed.

Lemma partition_first (sep : ascii) (before after : string) :
  no_char sep before = true ->
  partition sep (before ++ String sep after) = Some (before, after).
Proof.
  induction before as [|a before IH]; intros Hno.
  - simpl. now rewrite Ascii.eqb_refl.
  - simpl in Hno. apply andb_prop in Hno as [Ha Hno].
    apply negb_true_iff in Ha.
    cbn [append partition]. now rewrite Ha, IH.
Qed.

Lemma concat_cons (x : string) (xs : list string) :
  String.concat "" (x :: xs) = (x ++ String.concat "" xs)%string.
Proof. destruct xs; simpl; [now rewrite append_nil_r | reflexivity]. Qed.

Lemma Forall_combine_snd (P : float -> Prop) (ts : list Z) (cs : list float) :
  Forall P cs -> Forall (fun row => P (snd row)) (combine ts cs).
Proof.
  intros H. revert ts. induction H as [|c cs Hc _ IH]; intros [|t ts]; simpl; auto.
Qed.

Lemma combine_columns (ts : list Z) (cs : list float) :
  List.length ts = List.length cs ->
  map fst (combine ts cs) = ts /\ map snd (combine ts cs) = cs.
Proof.
  revert cs. induction ts as [|t ts IH]; intros [|c cs] Hlen; simpl in *;
    try discriminate; auto.
  destruct (IH cs) as [H1 H2]; [lia|]. now rewrite H1, H2.
Qed.

Lemma bind_ok (A B : Type) (r : result A) (k : A -> result B) (b : B) :
  bind r k = Ok b -> exists a, r = Ok a /\ k a = Ok b.
Proof. destruct r as [a|e]; simpl; [eauto | discriminate]. Qed.

Lemma make_frame_ok (time : list Z) (conc : list float) (df : DataFrame) :
  make_frame time conc = Ok df ->
  List.length (Time df) = List.length (Concentration df).
Proof.
  unfold make_frame. destruct (Nat.eqb_spec (List.length time) (List.length conc));
    [|discriminate].
  now intros [= <-].
Qed.

Section CsvFacts.

Variable float_repr : float -> string.
Variable float_parse : string -> option float.

Lemma parse_row_csv (row : Z * float) :
  float_parse (float_repr (snd row)) = Some (snd row) ->
  parse_row float_parse (int_repr (fst row) ++ String comma (float_repr (snd row)))
  = Some row.
Proof.
  intros Hc. unfold parse_row.
  rewrite partition_first by apply int_repr_no_comma.
  rewrite int_parse_repr, Hc. now destruct row.
Qed.

Lemma read_rows (rows : list (Z * float)) :
  Forall (fun row => cell_round_trips float_repr float_parse (snd row)) rows ->
  parse_rows float_parse
    (splitlines_from "" (String.concat "" (map (csv_row float_repr) rows)))
  = Some rows.
Proof.
  induction 1 as [|row rows [Hno Hc] _ IH]; [reflexivity|].
  cbn [map]. rewrite concat_cons. unfold csv_row at 1.
  change (String comma (float_repr (snd row) ++ String newline ""))%string
    with (String comma (float_repr (snd row)) ++ String newline "")%string.
  rewrite <- append_assoc, append_assoc.
  cbn [append].
  rewrite splitlines_from_line.
  - cbn [append parse_rows]. rewrite parse_row_csv by exact Hc. now rewrite IH.
  - rewrite no_char_append, int_repr_no_newline. cbn [no_char]. now rewrite Hno.
Qed.

Lemma read_csv_to_csv (df : DataFrame) :
  Forall (cell_round_trips float_repr float_parse) (Concentration df) ->
  read_csv float_parse (to_csv float_repr df) = Some (set_index_Time df).
Proof.
  intros H. unfold read_csv, to_csv, splitlines.
  rewrite splitlines_from_line by reflexivity.
  cbn [append]. rewrite String.eqb_refl.
  apply read_rows, Forall_combine_snd, H.
Qed.

Variable np_exp : float -> float.
Variable normal_sample : nat -> float.

Lemma run_frame_lengths (m : string) (n : nat) (c0 g k kd : float) (df : DataFrame) :
  run np_exp normal_sample m n c0 g k kd = Ok df ->
  List.length (Time df) = List.length (Concentration df).
Proof.
  unfold run. intros H.
  repeat (apply bind_ok in H as (? & _ & H)).
  now apply make_frame_ok in H.
Qed.

(** The framing of the export.  When the page shows a run, the text
    behind the download button, read back line by line (the header
    "Time,Concentration", then an integer and a float separated by a
    comma), is the series of the line chart, and that series pairs the two
    columns of the one frame the run returned.  The text of a float cell is
    not fixed by the source: the statement holds for the cells whose text
    has no line break and reads back as the same float, and says nothing
    of a text that loses digits. *)
Theorem csv_reads_back_as_the_chart
    (m : string) (n : nat) (c0 g k kd : float) (out : Output) :
  page np_exp normal_sample float_repr true m n c0 g k kd = Ok (Some out) ->
  Forall (cell_round_trips float_repr float_parse) (map snd (line_chart out)) ->
  read_csv float_parse (download_button out) = Some (line_chart out)
  /\ exists df,
       run np_exp normal_sample m n c0 g k kd = Ok df
       /\ map fst (line_chart out) = Time df
       /\ map snd (line_chart out) = Concentration df.
Proof.
  unfold page. intros Hpage Hcells.
  apply bind_ok in Hpage as (df & Hrun & [= <-]).
  cbn [display line_chart download_button] in *.
  destruct (combine_columns (Time df) (Concentration df)) as [Ht Hc];
    [now apply run_frame_lengths in Hrun|].
  unfold set_index_Time in *. rewrite Hc in Hcells.
  split; [now apply read_csv_to_csv|].
  exists df. auto.
Qed.

End CsvFacts.

(** ** Concrete runs *)

(** The decimal literals of the source as binary64 values. *)
Example literal_0_01 : F64.literal 1 2 = S754_finite false 5764607523034235 (-59).
Proof. vm_compute. reflexivity. Qed.

Example literal_0_1 : F64.literal 1 1 = S754_finite false 7205759403792794 (-56).
Proof. vm_compute. reflexivity. Qed.

(** The substring tests on the six entries of the select box: only "Hydro"
    passes the test for "Hydro", and "Basic" passes the test for "B". *)
Example model_flags :
  map (fun m => (str_in "Hydro" m, str_in "HT" m, str_in "B" m,
                 str_in "C" m, str_in "M" m, str_in "G" m)) model_types
  = [ (false, false, true, false, false, false);
      (true, false, false, false, false, false);
      (false, true, false, false, false, false);
      (false, true, true, false, false, false);
      (false, true, true, true, true, false);
      (false, true, true, true, true, true) ].
Proof. vm_compute. reflexivity. Qed.

(** "Hydro" at 50 steps raises. *)
Lemma run_raises_unless_100_steps_witness :
  run exp_at_zero no_noise "Hydro" 50
    (F64.of_int 100) F64.one (F64.literal 1 1) (F64.literal 5 1)
  = Raise (ValueError_broadcast 50 100).
Proof.
  apply (@run_raises_unless_100_steps exp_at_zero no_noise "Hydro" 50).
  - right; left; reflexivity.
  - lia.
  - lia.
Defined.

(** The biodegradation placeholder on a 50-element series raises. *)
Lemma biodegradation_raises_unless_100_witness :
  biodegradation exp_at_zero (np.ones 50) [("decay_rate"%string, F64.literal 1 1)]
  = Raise (ValueError_broadcast 50 100).
Proof.
  apply (@biodegradation_raises_unless_100 exp_at_zero (np.ones 50) (F64.literal 1 1)).
  - unfold np.ones. rewrite repeat_length. lia.
  - unfold np.ones. rewrite repeat_length. lia.
Defined.

(** The thermal block on a 50-element series raises. *)
Lemma thermal_branch_raises_unless_100_witness :
  thermal_branch (np.ones 50) = Raise (ValueError_broadcast 50 100).
Proof.
  apply (@thermal_branch_raises_unless_100 (np.ones 50)).
  unfold np.ones. rewrite repeat_length. lia.
Defined.

(** Two runs of "HTBCM" that differ. *)
Lemma runs_repeat_unless_mechanical_witness :
  exists n c0 g k kd sample1 sample2,
    run exp_at_zero sample1 "HTBCM" n c0 g k kd
    <> run exp_at_zero sample2 "HTBCM" n c0 g k kd.
Proof.
  apply (@runs_repeat_unless_mechanical exp_at_zero "HTBCM").
  - intros s. reflexivity.
  - do 4 right; left; reflexivity.
Defined.

(** The gradient 2.5. *)
Lemma hydraulic_gradient_never_matters_witness :
  hydraulic_flow [("hydraulic_gradient"%string, F64.literal 25 1)]
  = repeat (F64.literal 25 1) 100
  /\ (exists top,
        py_max (hydraulic_flow [("hydraulic_gradient"%string, F64.literal 25 1)]) = Ok top
        /\ np.array_scalar F64.div
             (hydraulic_flow [("hydraulic_gradient"%string, F64.literal 25 1)]) top
           = np.ones 100)
  /\ (forall conc, List.length conc = 100 -> Forall F64.valid conc ->
        hydro_branch (F64.literal 25 1) conc = Ok conc)
  /\ (forall g', F64.valid g' -> F64.is_finite g' = true -> F64.is_zero g' = false ->
      forall m n c0 k kd,
        run exp_at_zero no_noise m n c0 (F64.literal 25 1) k kd
        = run exp_at_zero no_noise m n c0 g' k kd).
Proof.
  apply (@hydraulic_gradient_never_matters exp_at_zero no_noise (F64.literal 25 1));
    reflexivity.
Defined.

(** The export of the "HT" run with the default inputs, under
    [float_text]. *)
Lemma csv_reads_back_as_the_chart_witness :
  let df :=
    mkDataFrame (np.arange 100)
      (map (series_value exp_at_zero no_noise "HT"
              (F64.of_int 100) F64.one (F64.literal 1 1) (F64.literal 5 1))
         (seq 0 100)) in
  let out := display float_text df in
  read_csv float_of_text (download_button out) = Some (line_chart out)
  /\ exists df',
       run exp_at_zero no_noise "HT" 100
         (F64.of_int 100) F64.one (F64.literal 1 1) (F64.literal 5 1) = Ok df'
       /\ map fst (line_chart out) = Time df'
       /\ map snd (line_chart out) = Concentration df'.
Proof.
  apply (@csv_reads_back_as_the_chart float_text float_of_text exp_at_zero no_noise
           "HT" 100 (F64.of_int 100) F64.one (F64.literal 1 1) (F64.literal 5 1)).
  - unfold page. now rewrite run_at_100.
  - cbn [display line_chart]. unfold set_index_Time. cbn [Time Concentration].
    destruct (combine_columns (np.arange 100)
                (map (series_value exp_at_zero no_noise "HT"
                        (F64.of_int 100) F64.one (F64.literal 1 1) (F64.literal 5 1))
                   (seq 0 100))) as [_ ->];
      [now rewrite arange_length, length_map, length_seq|].
    apply Forall_forall. intros c Hc.
    apply in_map_iff in Hc as (i & <- & Hi).
    apply in_seq in Hi.
    do 100 (destruct i as [|i]; [split; vm_compute; reflexivity|]).
    lia.
Defined.

(** * Further properties of the code *)

(** ** More binary64 facts *)

Lemma div_eucl_shift (m : positive) (t : Z) :
  (52 <= t)%Z ->
  Z.div_eucl (Zpos m * 2 ^ t) 4503599627370496 = (Zpos m * 2 ^ (t - 52), 0)%Z.
Proof.
  intros Ht. set (s := (t - 52)%Z). replace t with (s + 52)%Z by (unfold s; lia).
  assert (Hs : (0 <= s)%Z) by (unfold s; lia). clearbody s.
  assert (Hp : (0 < 2 ^ s)%Z) by (apply Z.pow_pos_nonneg; lia).
  rewrite Z.pow_add_r by lia.
  change (2 ^ 52)%Z with 4503599627370496%Z.
  generalize (Z.div_eucl_eq (Zpos m * (2 ^ s * 4503599627370496)) 4503599627370496).
  generalize (Z.mod_pos_bound (Zpos m * (2 ^ s * 4503599627370496)) 4503599627370496).
  unfold Z.modulo.
  destruct (Z.div_eucl _ _) as [q r].
  intros Hr Heq. specialize (Hr ltac:(lia)). specialize (Heq ltac:(lia)).
  set (a := (Zpos m * 2 ^ s)%Z) in *.
  assert (q = a) by nia.
  assert (r = 0)%Z by nia.
  now subst.
Qed.

Lemma div_one_r (x : float) : F64.valid x -> F64.div x F64.one = x.
Proof.
  destruct x as [s|s| |s m e]; intros Hv.
  - destruct s; reflexivity.
  - destruct s; reflexivity.
  - reflexivity.
  - pose proof (valid_finite Hv) as [Hc Hb].
    change F64.one with (S754_finite false 4503599627370496 (-52)).
    unfold F64.div, SFdiv, SFdiv_core_binary.
    rewrite xorb_false_r.
    cbn [Zdigits2].
    change (Zpos (digits2_pos 4503599627370496) + -52)%Z with 1%Z.
    set (d := Zpos (digits2_pos m)) in *.
    assert (He : fexp F64.prec F64.emax (d + e - 1) = e
                 \/ fexp F64.prec F64.emax (d + e - 1) = (e - 1)%Z)
      by (unfold fexp, emin, F64.prec, F64.emax in *; lia).
    destruct He as [He | He]; rewrite He.
    + replace (Z.min e (e - -52)) with e by lia.
      replace (e - -52 - e)%Z with 52%Z by lia.
      cbv iota. rewrite Z.shiftl_mul_pow2 by lia.
      rewrite div_eucl_shift by lia.
      change (2 ^ (52 - 52))%Z with 1%Z. rewrite Z.mul_1_r.
      change (new_location 4503599627370496 0) with loc_Exact.
      unfold binary_round_aux.
      rewrite shr_fexp_canonical by exact Hc.
      cbn [shr_m loc_of_shr_record round_nearest_even].
      rewrite shr_fexp_canonical by exact Hc.
      cbn [shr_m]. apply Z.leb_le in Hb. now rewrite Hb.
    + replace (Z.min (e - 1) (e - -52)) with (e - 1)%Z by lia.
      replace (e - -52 - (e - 1))%Z with 53%Z by lia.
      cbv iota. rewrite Z.shiftl_mul_pow2 by lia.
      rewrite div_eucl_shift by lia.
      change (2 ^ (53 - 52))%Z with 2%Z.
      change (new_location 4503599627370496 0) with loc_Exact.
      replace (Zpos m * 2)%Z with (Zpos m~0) by lia.
      unfold binary_round_aux.
      assert (Hs : shr_fexp F64.prec F64.emax (Zpos m~0) (e - 1) loc_Exact
                   = ({| shr_m := Zpos m; shr_r := false; shr_s := false |}, e)).
      { unfold shr_fexp. cbn [Zdigits2 digits2_pos].
        replace (Zpos (Pos.succ (digits2_pos m)) + (e - 1))%Z with (d + e)%Z by (unfold d; lia).
        rewrite Hc. replace (e - (e - 1))%Z with 1%Z by lia.
        cbn [shr shr_record_of_loc iter_pos shr_1 orb]. f_equal. lia. }
      rewrite Hs.
      cbn [shr_m loc_of_shr_record round_nearest_even].
      rewrite shr_fexp_canonical by exact Hc.
      cbn [shr_m]. apply Z.leb_le in Hb. now rewrite Hb.
Qed.

Lemma abs_opp (x : float) : F64.abs (F64.opp x) = F64.abs x.
Proof. destruct x; reflexivity. Qed.

Lemma div_by_zero_not_finite (x : float) (s : bool) :
  F64.is_finite (F64.div x (S754_zero s)) = false.
Proof. destruct x as [[]|[]| |[] ? ?], s; reflexivity. Qed.

Lemma zero_times_index (s : bool) (i : nat) :
  i < 100 -> F64.mul (S754_zero s) (F64.of_int (Z.of_nat i)) = S754_zero s.
Proof.
  intros Hi.
  do 100 (destruct i as [|i]; [destruct s; reflexivity|]).
  lia.
Qed.

(** ** More on shapes *)

Lemma zip_with_length f (a b : list float) :
  List.length a = List.length b -> List.length (np.zip_with f a b) = List.length a.
Proof.
  revert b. induction a as [|x a IH]; intros [|y b] H; simpl in *; try discriminate; auto.
Qed.

Lemma inplace_ok_length f (a b out : list float) :
  np.inplace f a b = Ok out -> List.length out = List.length a.
Proof.
  unfold np.inplace.
  destruct (Nat.eqb_spec (List.length a) (List.length b)) as [E|E].
  - intros [= <-]. now apply zip_with_length.
  - destruct b as [|y [|y' b]]; try discriminate.
    intros [= <-]. unfold np.array_scalar. now rewrite length_map.
Qed.

Lemma inplace_is_ok f (a b : list float) :
  2 <= List.length b ->
  is_ok (np.inplace f a b) = Nat.eqb (List.length a) (List.length b).
Proof.
  intros Hb. destruct (Nat.eqb_spec (List.length a) (List.length b)) as [E|E].
  - now rewrite inplace_same.
  - now rewrite inplace_mismatch.
Qed.

Lemma broadcast_empty f (b : list float) :
  2 <= List.length b ->
  np.broadcast f [] b = Raise (ValueError_broadcast 0 (List.length b)).
Proof. destruct b as [|y [|y' b]]; simpl; intros H; try lia. reflexivity. Qed.

Lemma broadcast_singleton f (x : float) (b : list float) :
  2 <= List.length b ->
  np.broadcast f [x] b = Ok (np.scalar_array f x b).
Proof. destruct b as [|y [|y' b]]; simpl; intros H; try lia. reflexivity. Qed.

Lemma get_missing (d : dict) (key : string) (default : float) :
  ~ In key (map fst d) -> get d key default = default.
Proof.
  induction d as [|[k v] d IH]; intros Hno; simpl; [reflexivity|].
  destruct (String.eqb_spec k key) as [->|_].
  - exfalso. apply Hno. now left.
  - apply IH. intros Hin. apply Hno. now right.
Qed.

Lemma Forall_nth_valid (conc : list float) (i : nat) :
  Forall F64.valid conc -> i < List.length conc -> F64.valid (nth i conc F64.nan).
Proof. intros H Hi. now apply Forall_nth. Qed.

(** ** The run and its blocks, beyond the claims *)

Section MoreOnTheRun.

Variable np_exp : float -> float.
Variable normal_sample : nat -> float.

Local Abbreviation run' := (run np_exp normal_sample).

Lemma initial_series_length (n : nat) (c0 : float) :
  List.length (np.array_scalar F64.mul (np.ones n) c0) = n.
Proof. rewrite ones_scaled. shape. Qed.

Lemma thermal_branch_ok (conc out : list float) :
  thermal_branch conc = Ok out ->
  List.length conc = 100 /\ List.length out = 100.
Proof.
  intros H. destruct (Nat.eq_dec (List.length conc) 100) as [E|E].
  - split; [exact E|]. apply inplace_ok_length in H. congruence.
  - rewrite thermal_branch_mismatch in H by exact E. discriminate.
Qed.

Lemma biodegradation_ok_100 (conc out : list float) (parameters : dict) :
  List.length conc = 100 ->
  biodegradation np_exp conc parameters = Ok out -> List.length out = 100.
Proof.
  intros E. unfold biodegradation.
  rewrite broadcast_same
    by (unfold exp, np.scalar_array, np.astype_float; rewrite E; shape).
  intros [= <-]. rewrite zip_with_length; [exact E|].
  unfold exp, np.scalar_array, np.astype_float. rewrite E. shape.
Qed.

Lemma mechanical_branch_ok (conc out : list float) :
  mechanical_branch normal_sample conc = Ok out -> List.length out = List.length conc.
Proof. apply inplace_ok_length. Qed.

(** A frame the run returns has exactly [time_steps] rows: the time
    column is [0, 1, ..., time_steps - 1] and the concentration column has
    [time_steps] entries, for every model name and all inputs. *)
Theorem returned_frame_has_time_steps_rows
    (m : string) (n : nat) (c0 g k kd : float) (df : DataFrame) :
  run' m n c0 g k kd = Ok df ->
  Time df = np.arange n /\ List.length (Concentration df) = n.
Proof.
  unfold run. intros H.
  repeat (apply bind_ok in H as (? & _ & H)).
  unfold make_frame in H.
  destruct (Nat.eqb_spec (List.length (np.arange n)) (List.length x5)) as [E|E];
    [|discriminate].
  injection H as <-. cbn [Time Concentration].
  split; [reflexivity|]. now rewrite <- E, arange_length.
Qed.

(** The model types "HT", "HTB", "HTBCM", "HTBCMG" form a ladder: for
    every step count and all inputs, the run of each one is the run of the
    one before it followed by the blocks its name adds (biodegradation;
    sorption and deformation; gas), errors included. *)
Theorem model_ladder (n : nat) (c0 g k kd : float) :
  run' "HTB" n c0 g k kd
  = (df <- run' "HT" n c0 g k kd ;;
     c <- biodegradation np_exp (Concentration df) [("decay_rate"%string, k)] ;;
     make_frame (Time df) c)
  /\ run' "HTBCM" n c0 g k kd
     = (df <- run' "HTB" n c0 g k kd ;;
        c <- mechanical_branch normal_sample
               (chemical_interactions (Concentration df) [("kd"%string, kd)]) ;;
        make_frame (Time df) c)
  /\ run' "HTBCMG" n c0 g k kd
     = (df <- run' "HTBCM" n c0 g k kd ;;
        c <- gas_branch (Concentration df) ;;
        make_frame (Time df) c).
Proof.
  unfold run. cbv zeta. eval_flags. cbn [bind].
  pose proof (initial_series_length n c0) as H0.
  remember (np.array_scalar F64.mul (np.ones n) c0) as conc0 eqn:Hc0. clear Hc0.
  destruct (thermal_branch conc0) as [c1|e] eqn:Ht; cbn [bind];
    [|repeat split; reflexivity].
  apply thermal_branch_ok in Ht as [Hn H1]. rewrite H0 in Hn. clear H0. subst n.
  split; [|split].
  - rewrite (make_frame_same (np.arange 100) c1) by (rewrite arange_length; congruence).
    reflexivity.
  - destruct (biodegradation np_exp c1 _) as [c2|e] eqn:Hb; cbn [bind]; [|reflexivity].
    apply biodegradation_ok_100 in Hb; [|exact H1].
    rewrite (make_frame_same (np.arange 100) c2) by (rewrite arange_length; congruence).
    reflexivity.
  - destruct (biodegradation np_exp c1 _) as [c2|e] eqn:Hb; cbn [bind]; [|reflexivity].
    apply biodegradation_ok_100 in Hb; [|exact H1].
    destruct (mechanical_branch normal_sample _) as [c3|e] eqn:Hm; cbn [bind];
      [|reflexivity].
    apply mechanical_branch_ok in Hm.
    unfold chemical_interactions, np.array_scalar in Hm. rewrite length_map in Hm.
    rewrite (make_frame_same (np.arange 100) c3) by (rewrite arange_length; congruence).
    reflexivity.
Qed.

(** [biodegradation] returns without raising exactly when its series has
    1 or 100 elements, and what it returns always has 100 elements (a
    one-element series is broadcast against the 100 decay factors). *)
Theorem biodegradation_shape (conc : list float) (parameters : dict) :
  is_ok (biodegradation np_exp conc parameters)
  = Nat.eqb (List.length conc) 1 || Nat.eqb (List.length conc) 100
  /\ forall out, biodegradation np_exp conc parameters = Ok out ->
                 List.length out = 100.
Proof.
  assert (Hlen : forall k, List.length
            (exp np_exp (np.scalar_array F64.mul k (np.astype_float (np.arange 100))))
            = 100)
    by (intros; unfold exp, np.scalar_array, np.astype_float; shape).
  destruct conc as [|x [|y conc]].
  - unfold biodegradation. rewrite broadcast_empty by (rewrite Hlen; auto with arith).
    split; [reflexivity | discriminate].
  - unfold biodegradation. rewrite broadcast_singleton by (rewrite Hlen; auto with arith).
    split; [reflexivity|].
    intros out [= <-]. unfold np.scalar_array, exp, np.astype_float. shape.
  - destruct (Nat.eq_dec (List.length (x :: y :: conc)) 100) as [E|E].
    + split.
      * unfold biodegradation. rewrite broadcast_same by now rewrite Hlen.
        rewrite E. reflexivity.
      * intros out. now apply biodegradation_ok_100.
    + rewrite biodegradation_mismatch by (simpl; auto with arith).
      split; [|discriminate].
      apply Nat.eqb_neq in E. rewrite E. reflexivity.
Qed.

Lemma hydro_branch_is_ok (g : float) (conc : list float) :
  is_ok (hydro_branch g conc) = Nat.eqb (List.length conc) 100.
Proof.
  unfold hydro_branch. rewrite hydraulic_flow_max. cbn [bind].
  rewrite inplace_is_ok; rewrite hydraulic_flow_constant; unfold np.array_scalar; shape.
Qed.

Lemma mechanical_branch_is_ok (conc : list float) :
  is_ok (mechanical_branch normal_sample conc) = Nat.eqb (List.length conc) 100.
Proof.
  unfold mechanical_branch.
  rewrite inplace_is_ok;
    unfold np.scalar_array, np.abs, mechanical_response, random_normal; shape.
Qed.

Lemma gas_branch_is_ok (conc : list float) :
  is_ok (gas_branch conc) = Nat.eqb (List.length conc) 100.
Proof.
  unfold gas_branch. rewrite gas_max. cbn [bind].
  rewrite inplace_is_ok; unfold np.scalar_array, np.array_scalar; shape.
Qed.

Lemma thermal_branch_is_ok (conc : list float) :
  is_ok (thermal_branch conc) = Nat.eqb (List.length conc) 100.
Proof.
  unfold thermal_branch.
  rewrite inplace_is_ok; unfold np.scalar_array, np.array_scalar; shape.
Qed.

(** Each of the four blocks that update the series in place (hydraulic,
    thermal, mechanical, gas) returns without raising exactly when the
    series has 100 elements, and what it returns has the length of the
    series. *)
Theorem inplace_blocks_need_100_elements (g : float) (conc : list float) :
  is_ok (hydro_branch g conc) = Nat.eqb (List.length conc) 100
  /\ is_ok (thermal_branch conc) = Nat.eqb (List.length conc) 100
  /\ is_ok (mechanical_branch normal_sample conc) = Nat.eqb (List.length conc) 100
  /\ is_ok (gas_branch conc) = Nat.eqb (List.length conc) 100
  /\ forall out,
       hydro_branch g conc = Ok out \/ thermal_branch conc = Ok out
       \/ mechanical_branch normal_sample conc = Ok out \/ gas_branch conc = Ok out ->
       List.length out = List.length conc.
Proof.
  split; [apply hydro_branch_is_ok|].
  split; [apply thermal_branch_is_ok|].
  split; [apply mechanical_branch_is_ok|].
  split; [apply gas_branch_is_ok|].
  intros out [H|[H|[H|H]]].
  - unfold hydro_branch in H. rewrite hydraulic_flow_max in H. cbn [bind] in H.
    now apply inplace_ok_length in H.
  - now apply inplace_ok_length in H.
  - now apply inplace_ok_length in H.
  - unfold gas_branch in H. rewrite gas_max in H. cbn [bind] in H.
    now apply inplace_ok_length in H.
Qed.

(** On a 100-element series each in-place block multiplies the element
    of index [i] by its factor: the normalised flow [g / g], the thermal
    factor [1 + 0.01 * (T_i - 20)], the deformation factor
    [1 - |sample_i|], the gas factor [1 - gas_i / max(gas)]. *)
Theorem inplace_blocks_at_100 (g : float) (conc : list float) :
  List.length conc = 100 ->
  hydro_branch g conc
  = Ok (map (fun i => F64.mul (nth i conc F64.nan) (hydro_factor g)) (seq 0 100))
  /\ thermal_branch conc
     = Ok (map (fun i => F64.mul (nth i conc F64.nan) (thermal_factor i)) (seq 0 100))
  /\ mechanical_branch normal_sample conc
     = Ok (map (fun i => F64.mul (nth i conc F64.nan)
                           (deformation_factor normal_sample i)) (seq 0 100))
  /\ gas_branch conc
     = Ok (map (fun i => F64.mul (nth i conc F64.nan) (gas_factor i)) (seq 0 100)).
Proof.
  intros Hlen.
  assert (Hc : conc = map (fun i => nth i conc F64.nan) (seq 0 100))
    by (rewrite <- Hlen; apply tabulate_nth).
  split; [|split; [|split]].
  - rewrite Hc at 1. apply hydro_branch_at.
  - rewrite Hc at 1. apply thermal_branch_at.
  - rewrite Hc at 1. apply mechanical_branch_at.
  - rewrite Hc at 1. apply gas_branch_at.
Qed.

(** With the distribution coefficient [Kd = -1] the sorption placeholder
    divides by [1 + Kd = 0]: whatever the series, no element of the result
    is finite (each is an infinity or NaN), and nothing is raised. *)
Theorem sorption_with_kd_minus_one_is_never_finite (conc : list float) :
  Forall (fun c => F64.is_finite c = false)
    (chemical_interactions conc [("kd"%string, F64.of_int (-1))]).
Proof.
  unfold chemical_interactions, np.array_scalar.
  cbn [get String.eqb Ascii.eqb Bool.eqb].
  replace (F64.add F64.one (F64.of_int (-1))) with (S754_zero false)
    by (vm_compute; reflexivity).
  apply Forall_map, Forall_forall. intros c _. apply div_by_zero_not_finite.
Qed.

(** With [Kd = 0] (of either sign) the sorption placeholder returns a
    series of binary64 values unchanged: [1 + 0 = 1] and [c / 1 = c]
    exactly. *)
Theorem sorption_with_kd_zero_is_identity (s : bool) (conc : list float) :
  Forall F64.valid conc ->
  chemical_interactions conc [("kd"%string, S754_zero s)] = conc.
Proof.
  intros Hv. unfold chemical_interactions, np.array_scalar.
  cbn [get String.eqb Ascii.eqb Bool.eqb].
  replace (F64.add F64.one (S754_zero s)) with F64.one by (destruct s; reflexivity).
  induction Hv as [|c conc Hc _ IH]; cbn [map]; [reflexivity|].
  now rewrite div_one_r, IH.
Qed.

(** With a zero decay rate (of either sign) and an exponential that is
    exact at zero, [biodegradation] returns a 100-element series of
    binary64 values unchanged. *)
Theorem biodegradation_with_zero_rate_is_identity (s : bool) (conc : list float) :
  (forall z, np_exp (S754_zero z) = F64.one) ->
  List.length conc = 100 -> Forall F64.valid conc ->
  biodegradation np_exp conc [("decay_rate"%string, S754_zero s)] = Ok conc.
Proof.
  intros Hexp Hlen Hv.
  rewrite (tabulate_nth conc F64.nan) at 1. rewrite Hlen, biodegradation_at.
  unfold decay_factor. apply (f_equal Ok).
  etransitivity; [|symmetry; apply (tabulate_nth conc F64.nan)]. rewrite Hlen.
  apply map_ext_in. intros i Hi. apply in_seq in Hi.
  change (F64.opp (S754_zero s)) with (S754_zero (negb s)).
  rewrite zero_times_index by lia. rewrite Hexp.
  apply mul_one_r, Forall_nth_valid; [exact Hv | lia].
Qed.

Lemma mechanical_branch_opp (conc : list float) :
  mechanical_branch (fun i => F64.opp (normal_sample i)) conc
  = mechanical_branch normal_sample conc.
Proof.
  unfold mechanical_branch, mechanical_response, random_normal, np.abs.
  rewrite !map_map. do 2 f_equal.
  apply map_ext. intros i. apply abs_opp.
Qed.

(** The run reads only the magnitudes of the Gaussian samples: changing
    the sign of every sample changes nothing, for every model name, step
    count and input. *)
Theorem sample_signs_are_ignored (m : string) (n : nat) (c0 g k kd : float) :
  run np_exp (fun i => F64.opp (normal_sample i)) m n c0 g k kd
  = run' m n c0 g k kd.
Proof.
  unfold run. cbv zeta.
  repeat match goal with
    | |- bind ?r _ = bind ?r _ => destruct r as [?|?]; cbn [bind]; [|reflexivity]
    end.
  now rewrite mechanical_branch_opp.
Qed.

(** The "Hydro" model is flat: at 100 steps, for a binary64 initial
    concentration and a finite nonzero gradient, each of the 100 values is
    the initial concentration itself. *)
Theorem hydro_model_is_flat (c0 g k kd : float) :
  F64.valid c0 -> F64.valid g -> F64.is_finite g = true -> F64.is_zero g = false ->
  run' "Hydro" 100 c0 g k kd = Ok (mkDataFrame (np.arange 100) (repeat c0 100)).
Proof.
  intros Hc Hv Hf Hz. rewrite run_at_100. do 2 f_equal.
  unfold series_value. eval_flags. cbv iota zeta.
  rewrite hydro_factor_one by assumption.
  rewrite mul_one_l by exact Hc. rewrite mul_one_r by exact Hc.
  apply map_const_seq.
Qed.

Lemma decay_argument_at_zero (k : float) :
  F64.is_finite k = true ->
  exists z, F64.mul (F64.opp k) (F64.of_int (Z.of_nat 0)) = S754_zero z.
Proof. destruct k as [[]|[]| |[] ? ?]; try discriminate; intros _; eexists; reflexivity. Qed.

(** For the model types without sorption ("Basic", "Hydro", "HT",
    "HTB") the series at 100 steps starts at the initial concentration:
    its value at time 0 is [initial_conc] itself, for binary64 inputs, a
    finite decay rate, a finite nonzero gradient and an exponential that
    is exact at zero. *)
Theorem series_starts_at_initial_conc (m : string) (c0 g k kd : float) :
  (forall z, np_exp (S754_zero z) = F64.one) ->
  In m ["Basic"; "Hydro"; "HT"; "HTB"]%string ->
  F64.valid c0 -> F64.valid g -> F64.is_finite g = true -> F64.is_zero g = false ->
  F64.is_finite k = true ->
  exists df, run' m 100 c0 g k kd = Ok df /\ nth 0 (Concentration df) F64.nan = c0.
Proof.
  intros Hexp Hm Hc Hv Hf Hz Hk.
  eexists. split; [apply run_at_100|]. cbn [Concentration].
  rewrite nth_map_seq by auto with arith.
  destruct (decay_argument_at_zero k Hk) as [z Hz0].
  assert (Hb : basic_factor np_exp 0 = F64.one)
    by (unfold basic_factor;
        replace (F64.mul (F64.opp (F64.literal 1 2)) (F64.of_int (Z.of_nat 0)))
          with (S754_zero true) by (vm_compute; reflexivity);
        apply Hexp).
  assert (Hd : decay_factor np_exp k 0 = F64.one)
    by (unfold decay_factor; rewrite Hz0; apply Hexp).
  assert (Ht : thermal_factor 0 = F64.one) by (vm_compute; reflexivity).
  unfold series_value.
  simpl in Hm. destruct Hm as [<-|[<-|[<-|[<-|[]]]]]; eval_flags; cbv iota zeta;
    rewrite ?Hb, ?Hd, ?Ht, ?hydro_factor_one by assumption;
    rewrite (mul_one_l Hc); rewrite ?(mul_one_r Hc); reflexivity.
Qed.

(** When the parameter dictionary has none of the three keys, the
    placeholders fall back on their defaults: gradient 1.0 (the flow is
    all ones), Kd 0.5 (the series is divided by 1.5) and decay rate 0.1. *)
Theorem defaults_when_keys_are_missing (parameters : dict) (conc : list float) :
  (forall key, In key ["hydraulic_gradient"; "kd"; "decay_rate"]%string ->
               ~ In key (map fst parameters)) ->
  hydraulic_flow parameters = np.ones 100
  /\ chemical_interactions conc parameters
     = np.array_scalar F64.div conc (F64.literal 15 1)
  /\ biodegradation np_exp conc parameters
     = biodegradation np_exp conc [("decay_rate"%string, F64.literal 1 1)].
Proof.
  intros Hno.
  unfold hydraulic_flow, chemical_interactions, biodegradation.
  rewrite !get_missing by (apply Hno; simpl; auto).
  split; [vm_compute; reflexivity|]. split; [|reflexivity].
  unfold np.array_scalar. apply map_ext. intros c. f_equal.
Qed.

(** What the five coupled model types compute at 100 steps, element by
    element; every product and quotient is rounded to binary64 in the
    order written. *)
Theorem model_formulas (c0 g k kd : float) :
  let frame f := Ok (mkDataFrame (np.arange 100) (map f (seq 0 100))) in
  let start := F64.mul F64.one c0 in
  let ht i := F64.mul start (thermal_factor i) in
  let htb i := F64.mul (ht i) (decay_factor np_exp k i) in
  let htbcm i :=
    F64.mul (F64.div (htb i) (F64.add F64.one kd))
      (deformation_factor normal_sample i) in
  run' "Hydro" 100 c0 g k kd = frame (fun _ => F64.mul start (hydro_factor g))
  /\ run' "HT" 100 c0 g k kd = frame ht
  /\ run' "HTB" 100 c0 g k kd = frame htb
  /\ run' "HTBCM" 100 c0 g k kd = frame htbcm
  /\ run' "HTBCMG" 100 c0 g k kd = frame (fun i => F64.mul (htbcm i) (gas_factor i)).
Proof.
  cbv zeta. rewrite !run_at_100. unfold series_value. eval_flags. cbv iota zeta.
  repeat split; reflexivity.
Qed.

End MoreOnTheRun.

(** ** Concrete instances of the properties above *)

(** The frame of the "Hydro" run with the default inputs. *)
Lemma returned_frame_has_time_steps_rows_witness :
  let df :=
    mkDataFrame (np.arange 100)
      (map (series_value exp_at_zero no_noise "Hydro"
              (F64.of_int 100) F64.one (F64.literal 1 1) (F64.literal 5 1))
         (seq 0 100)) in
  Time df = np.arange 100 /\ List.length (Concentration df) = 100.
Proof.
  apply (@returned_frame_has_time_steps_rows exp_at_zero no_noise "Hydro" 100
           (F64.of_int 100) F64.one (F64.literal 1 1) (F64.literal 5 1)).
  apply run_at_100.
Defined.

(** The biodegradation of a 100-element series of ones at rate 0.1. *)
Lemma biodegradation_at_100_witness :
  biodegradation exp_at_zero (np.ones 100) [("decay_rate"%string, F64.literal 1 1)]
  = Ok (map (fun i => F64.mul (nth i (np.ones 100) F64.nan)
                        (exp_at_zero (F64.mul (F64.opp (F64.literal 1 1))
                                        (F64.of_int (Z.of_nat i)))))
          (seq 0 100)).
Proof.
  apply (@biodegradation_at_100 exp_at_zero (np.ones 100) (F64.literal 1 1)).
  reflexivity.
Defined.

(** The four in-place blocks on a 100-element series of ones. *)
Lemma inplace_blocks_at_100_witness :
  hydro_branch (F64.literal 25 1) (np.ones 100)
  = Ok (map (fun i => F64.mul (nth i (np.ones 100) F64.nan)
                        (hydro_factor (F64.literal 25 1))) (seq 0 100))
  /\ thermal_branch (np.ones 100)
     = Ok (map (fun i => F64.mul (nth i (np.ones 100) F64.nan) (thermal_factor i))
             (seq 0 100))
  /\ mechanical_branch half_noise (np.ones 100)
     = Ok (map (fun i => F64.mul (nth i (np.ones 100) F64.nan)
                           (deformation_factor half_noise i)) (seq 0 100))
  /\ gas_branch (np.ones 100)
     = Ok (map (fun i => F64.mul (nth i (np.ones 100) F64.nan) (gas_factor i))
             (seq 0 100)).
Proof.
  apply (@inplace_blocks_at_100 half_noise (F64.literal 25 1) (np.ones 100)).
  reflexivity.
Defined.

(** Sorption with [Kd = 0] on the series [100.0, 0.5, -0.0, NaN]. *)
Lemma sorption_with_kd_zero_is_identity_witness :
  chemical_interactions
    [F64.of_int 100; F64.literal 5 1; S754_zero true; F64.nan]
    [("kd"%string, S754_zero false)]
  = [F64.of_int 100; F64.literal 5 1; S754_zero true; F64.nan].
Proof.
  apply (@sorption_with_kd_zero_is_identity false).
  repeat constructor.
Defined.

(** Biodegradation at rate 0 on a 100-element series of ones. *)
Lemma biodegradation_with_zero_rate_is_identity_witness :
  biodegradation exp_at_zero (np.ones 100) [("decay_rate"%string, S754_zero false)]
  = Ok (np.ones 100).
Proof.
  apply (@biodegradation_with_zero_rate_is_identity exp_at_zero false (np.ones 100)).
  - intros z. reflexivity.
  - reflexivity.
  - unfold np.ones. apply Forall_forall. intros x Hx.
    apply repeat_spec in Hx. subst x. reflexivity.
Defined.

(** The "Hydro" run with the default inputs and gradient 2.5. *)
Lemma hydro_model_is_flat_witness :
  run exp_at_zero no_noise "Hydro" 100
    (F64.of_int 100) (F64.literal 25 1) (F64.literal 1 1) (F64.literal 5 1)
  = Ok (mkDataFrame (np.arange 100) (repeat (F64.of_int 100) 100)).
Proof.
  apply (@hydro_model_is_flat exp_at_zero no_noise); reflexivity.
Defined.

(** The "HTB" run with the default inputs starts at 100.0. *)
Lemma series_starts_at_initial_conc_witness :
  exists df,
    run exp_at_zero no_noise "HTB" 100
      (F64.of_int 100) F64.one (F64.literal 1 1) (F64.literal 5 1) = Ok df
    /\ nth 0 (Concentration df) F64.nan = F64.of_int 100.
Proof.
  apply (@series_starts_at_initial_conc exp_at_zero no_noise "HTB").
  - intros z. reflexivity.
  - do 3 right. left. reflexivity.
  - reflexivity.
  - reflexivity.
  - reflexivity.
  - reflexivity.
  - reflexivity.
Defined.

(** A dictionary that only sets a porosity. *)
Lemma defaults_when_keys_are_missing_witness :
  hydraulic_flow [("porosity"%string, F64.literal 3 1)] = np.ones 100
  /\ chemical_interactions [F64.of_int 3] [("porosity"%string, F64.literal 3 1)]
     = np.array_scalar F64.div [F64.of_int 3] (F64.literal 15 1)
  /\ biodegradation exp_at_zero [F64.of_int 3] [("porosity"%string, F64.literal 3 1)]
     = biodegradation exp_at_zero [F64.of_int 3] [("decay_rate"%string, F64.literal 1 1)].
Proof.
  apply (@defaults_when_keys_are_missing exp_at_zero
           [("porosity"%string, F64.literal 3 1)] [F64.of_int 3]).
  intros key [<-|[<-|[<-|[]]]]; cbn [map fst In]; intros [H|[]]; discriminate H.
Defined.

(** The hydraulic block on a 50-element series, gradient 2.5, raises. *)
Lemma hydro_branch_raises_unless_100_witness :
  hydro_branch (F64.literal 25 1) (np.ones 50) = Raise (ValueError_broadcast 50 100).
Proof.
  apply (@hydro_branch_raises_unless_100 (F64.literal 25 1) (np.ones 50)).
  unfold np.ones. rewrite repeat_length. lia.
Defined.
